(** * Commit message generator: the rule-based pipeline of [extention.ts]

    A shallow embedding of the decision functions of the extension
    ([parseGitStatus], [selectCommitType], [determineScope],
    [generateSubject], [getFileName], [categorizeFiles], [generateBody],
    [generateSummary], [generateFooter], [formatCommitMessage], [activate])
    together with the JavaScript primitives they rely on.

    Strings are sequences of UTF-16 code units; the embedding keeps the code
    units below 256, one [ascii] each.  Every literal and every regular
    expression of the source is plain ASCII. *)

From Stdlib Require Import String Ascii List Bool Arith ZArith Lia DecimalString.
From Stdlib Require Import Floats.SpecFloat.
From Stdlib Require Import Sorting.Permutation.
Import ListNotations.

Open Scope string_scope.

(** ** JavaScript string and array primitives *)

Module JS.

(** [WhiteSpace] and [LineTerminator] code units below 256: TAB, LF, VT,
    FF, CR, SP and NBSP. *)
Definition isWhiteSpace (c : ascii) : bool :=
  let n := nat_of_ascii c in
  (((9 <=? n) && (n <=? 13)) || (n =? 32) || (n =? 160))%nat.

Definition truthy (s : string) : bool :=
  match s with
  | EmptyString => false
  | String _ _ => true
  end.

Fixpoint trimStart (s : string) : string :=
  match s with
  | EmptyString => EmptyString
  | String c s' => if isWhiteSpace c then trimStart s' else s
  end.

Fixpoint trimEnd (s : string) : string :=
  match s with
  | EmptyString => EmptyString
  | String c s' =>
      match trimEnd s' with
      | EmptyString => if isWhiteSpace c then EmptyString else String c EmptyString
      | r => String c r
      end
  end.

(** [s.trim()] *)
Definition trim (s : string) : string := trimEnd (trimStart s).

Fixpoint take (n : nat) (s : string) : string :=
  match n, s with
  | S n', String c s' => String c (take n' s')
  | _, _ => EmptyString
  end.

Fixpoint drop (n : nat) (s : string) : string :=
  match n, s with
  | S n', String _ s' => drop n' s'
  | _, _ => s
  end.

(** [s.substring(from, to)] for [from <= to], and [s.substring(from)] *)
Definition substring (from to : nat) (s : string) : string :=
  take (to - from) (drop from s).

Definition substringFrom (from : nat) (s : string) : string := drop from s.

(** [s[i] === c]; an index past the end reads [undefined], equal to no
    character. *)
Definition charAtIs (s : string) (i : nat) (c : ascii) : bool :=
  match String.get i s with
  | Some d => Ascii.eqb d c
  | None => false
  end.

Fixpoint startsWith (p s : string) : bool :=
  match p, s with
  | EmptyString, _ => true
  | String a p', String b s' => Ascii.eqb a b && startsWith p' s'
  | String _ _, EmptyString => false
  end.

(** [s.includes(sub)] *)
Fixpoint includes (sub s : string) : bool :=
  startsWith sub s
  || match s with
     | EmptyString => false
     | String _ s' => includes sub s'
     end.

(** [s.split(sep)] for a one-character separator *)
Fixpoint split (sep : ascii) (s : string) : list string :=
  match s with
  | EmptyString => [EmptyString]
  | String c s' =>
      if Ascii.eqb c sep then EmptyString :: split sep s'
      else match split sep s' with
           | h :: t => String c h :: t
           | [] => [String c EmptyString]
           end
  end.

(** [l.join(sep)] *)
Definition join (sep : string) (l : list string) : string := String.concat sep l.

(** [[...new Set(l)]]: the distinct elements, in order of first occurrence *)
Fixpoint uniq (l : list string) : list string :=
  match l with
  | [] => []
  | x :: t => x :: filter (fun y => negb (String.eqb x y)) (uniq t)
  end.

(** [l.pop()] read as a value: the last element, [undefined] on [[]] *)
Fixpoint pop (l : list string) : option string :=
  match l with
  | [] => None
  | [x] => Some x
  | _ :: t => pop t
  end.

(** A value used as a condition: [null], [undefined] and the empty string
    are falsy. *)
Definition whenTruthy (o : option string) : option string :=
  match o with
  | Some s => if truthy s then Some s else None
  | None => None
  end.

(** [`${n}`] for a non-negative integer *)
Definition numberToString (n : nat) : string :=
  NilZero.string_of_uint (Nat.to_uint n).

Definition LF : ascii := ascii_of_nat 10.
Definition nl : string := String LF EmptyString.

End JS.

(** ** Regular expressions

    The fragment of the regular expression language that the source uses,
    with the backtracking semantics of ECMAScript: alternatives are tried
    left to right, quantifiers are greedy, [test] and [replace] look for the
    leftmost match. *)

Module RegExp.

Inductive regex : Type :=
| Chars (lit : string)            (* a run of literal characters *)
| Opt (r : regex)                 (* r?                          *)
| Seq (r1 r2 : regex)             (* r1 r2                       *)
| Alt (r1 r2 : regex)             (* r1|r2                       *)
| NoneOfPlus (cs : string)        (* [^cs]+                      *)
| EndOfInput.                     (* $                           *)

Record t : Type := mk { source : regex; ignoreCase : bool }.

(** [Canonicalize] without the [u] flag: upper-casing, which never maps a
    code unit of 128 or more to one below 128; for the ASCII patterns of
    the source only the ASCII letters matter. *)
Definition canonicalize (ic : bool) (c : ascii) : ascii :=
  let n := nat_of_ascii c in
  if ic && ((97 <=? n) && (n <=? 122))%nat then ascii_of_nat (n - 32) else c.

Definition sameChar (ic : bool) (a b : ascii) : bool :=
  Ascii.eqb (canonicalize ic a) (canonicalize ic b).

Fixpoint inClass (ic : bool) (c : ascii) (cs : string) : bool :=
  match cs with
  | EmptyString => false
  | String d cs' => sameChar ic d c || inClass ic c cs'
  end.

(** The input left after the literal [lit], when [s] starts with it. *)
Fixpoint matchChars (ic : bool) (lit s : string) : option string :=
  match lit, s with
  | EmptyString, _ => Some s
  | String a lit', String b s' =>
      if sameChar ic a b then matchChars ic lit' s' else None
  | String _ _, EmptyString => None
  end.

Section Backtracking.
Context {A : Type}.

(** [p*] then the continuation, longest run first. *)
Fixpoint starClass (p : ascii -> bool) (s : string)
         (k : string -> option A) : option A :=
  match s with
  | EmptyString => k s
  | String c s' =>
      if p c then
        match starClass p s' k with
        | Some x => Some x
        | None => k s
        end
      else k s
  end.

Definition plusClass (p : ascii -> bool) (s : string)
           (k : string -> option A) : option A :=
  match s with
  | EmptyString => None
  | String c s' => if p c then starClass p s' k else None
  end.

(** [run ic r s k]: match [r] at the start of [s], then hand the rest of
    the input to the continuation [k]; the first success in backtracking
    order wins. *)
Fixpoint run (ic : bool) (r : regex) (s : string)
         (k : string -> option A) : option A :=
  match r with
  | Chars lit =>
      match matchChars ic lit s with
      | Some rest => k rest
      | None => None
      end
  | Opt r' =>
      match run ic r' s k with
      | Some x => Some x
      | None => k s
      end
  | Seq r1 r2 => run ic r1 s (fun rest => run ic r2 rest k)
  | Alt r1 r2 =>
      match run ic r1 s k with
      | Some x => Some x
      | None => run ic r2 s k
      end
  | NoneOfPlus cs => plusClass (fun c => negb (inClass ic c cs)) s k
  | EndOfInput =>
      match s with
      | EmptyString => k s
      | String _ _ => None
      end
  end.
End Backtracking.

(** The leftmost match: the text before it and the text after it. *)
Fixpoint exec (re : t) (s : string) : option (string * string) :=
  match run (ignoreCase re) (source re) s (fun rest => Some rest) with
  | Some rest => Some (EmptyString, rest)
  | None =>
      match s with
      | EmptyString => None
      | String c s' =>
          match exec re s' with
          | Some (before, rest) => Some (String c before, rest)
          | None => None
          end
      end
  end.

(** [re.test(s)] *)
Definition test (re : t) (s : string) : bool :=
  match exec re s with
  | Some _ => true
  | None => false
  end.

(** [s.replace(re, by)] for a regular expression without the [g] flag *)
Definition replace (re : t) (by_ : string) (s : string) : string :=
  match exec re s with
  | Some (before, rest) => before ++ by_ ++ rest
  | None => s
  end.

End RegExp.

(** ** Numbers

    A JavaScript number is an IEEE 754 binary64 value.  Counts and lengths
    are integers and are kept as [nat]; the one place where the source
    leaves the integers is the product [files.length * 0.6], which is
    computed here with the binary64 operations of [SpecFloat]. *)

Module Number.

Definition prec : Z := 53.
Definition emax : Z := 1024.

Definition ofNat (n : nat) : spec_float :=
  binary_normalize prec emax (Z.of_nat n) 0 false.

(** The literal [0.6]: 0x3FE3333333333333 *)
Definition c0_6 : spec_float := S754_finite false 5404319552844595 (-53).

Definition mul (x y : spec_float) : spec_float := SFmul prec emax x y.

(** [x >= y] *)
Definition geb (x y : spec_float) : bool := SFleb y x.

(** [P / 2^sh] rounded to the nearest integer, ties to even: the
    significand a binary64 operation keeps when it drops the low [sh] bits
    of an exact result [P]. *)
Definition roundShift (P sh : Z) : Z :=
  let q := (P / 2 ^ sh)%Z in
  match (2 * (P mod 2 ^ sh) ?= 2 ^ sh)%Z with
  | Lt => q
  | Eq => if Z.even q then q else (q + 1)%Z
  | Gt => (q + 1)%Z
  end.

End Number.

(** ** Data model *)

Record GitChanges : Type := mkChanges {
  modified : list string;
  added : list string;
  deleted : list string;
  renamed : list string;
  untracked : list string
}.

Record CommitStructure : Type := mkCommit {
  type : string;
  scope : option string;
  subject : string;
  body : option string;
  footer : option string
}.

Record QuickPickItem : Type := mkItem {
  label : string;
  description : string;
  detail : string
}.

(** The five arrays [changes.<category>.push(file)] can write to. *)
Inductive Category : Type := Modified | Added | Deleted | Renamed | Untracked.

Definition push (cat : Category) (file : string) (changes : GitChanges) : GitChanges :=
  match cat with
  | Modified => mkChanges (modified changes ++ [file]) (added changes) (deleted changes)
                          (renamed changes) (untracked changes)
  | Added => mkChanges (modified changes) (added changes ++ [file]) (deleted changes)
                       (renamed changes) (untracked changes)
  | Deleted => mkChanges (modified changes) (added changes) (deleted changes ++ [file])
                         (renamed changes) (untracked changes)
  | Renamed => mkChanges (modified changes) (added changes) (deleted changes)
                         (renamed changes ++ [file]) (untracked changes)
  | Untracked => mkChanges (modified changes) (added changes) (deleted changes)
                           (renamed changes) (untracked changes ++ [file])
  end.

Definition noChanges : GitChanges := mkChanges [] [] [] [] [].

(** ** parseGitStatus *)

(** The body of the [lines.forEach] callback. *)
Definition parseLine (changes : GitChanges) (line : string) : GitChanges :=
  let statusCode := JS.substring 0 2 line in
  let file := JS.trim (JS.substringFrom 3 line) in
  if JS.charAtIs statusCode 0 "M" || JS.charAtIs statusCode 1 "M" then
    push Modified file changes
  else if JS.charAtIs statusCode 0 "A" || JS.includes "A" statusCode then
    push Added file changes
  else if JS.charAtIs statusCode 0 "D" || JS.includes "D" statusCode then
    push Deleted file changes
  else if JS.charAtIs statusCode 0 "R" || JS.includes "R" statusCode then
    push Renamed file changes
  else if String.eqb statusCode "??" then
    push Untracked file changes
  else changes.

(** [status.trim().split('\n').filter(line => line)] *)
Definition statusLines (status : string) : list string :=
  filter JS.truthy (JS.split JS.LF (JS.trim status)).

Definition parseGitStatus (status : string) : GitChanges :=
  fold_left parseLine (statusLines status) noChanges.

(** ** selectCommitType *)

(** The [types] table.  [detail] is display text only and takes part in no
    decision; its pictographs are kept as the bytes of the source file. *)
Definition types : list QuickPickItem :=
  [ mkItem "feat" "A new feature" "✨ New functionality";
    mkItem "fix" "A bug fix" "🐛 Bug fixes";
    mkItem "docs" "Documentation" "📚 Documentation changes";
    mkItem "style" "Code style" "💎 Formatting, semicolons";
    mkItem "refactor" "Code refactoring" "♻️ Code restructuring";
    mkItem "test" "Adding tests" "🧪 Test coverage";
    mkItem "chore" "Maintenance" "🔧 Build, dependencies";
    mkItem "perf" "Performance" "⚡ Performance improvements" ].

Import RegExp.

(** [/test|spec|__tests__/i] *)
Definition reTest : RegExp.t :=
  mk (Alt (Chars "test") (Alt (Chars "spec") (Chars "__tests__"))) true.

(** [/readme|\.md$/i] *)
Definition reDocs : RegExp.t :=
  mk (Alt (Chars "readme") (Seq (Chars ".md") EndOfInput)) true.

(** [/\.css$|\.scss$|\.less$/i] *)
Definition reStyle : RegExp.t :=
  mk (Alt (Seq (Chars ".css") EndOfInput)
       (Alt (Seq (Chars ".scss") EndOfInput) (Seq (Chars ".less") EndOfInput))) true.

(** The value of [autoDetected] before the quick pick is shown. *)
Definition autoDetected (changes : GitChanges) : option string :=
  let allFiles :=
    (modified changes ++ added changes ++ deleted changes ++ renamed changes
     ++ untracked changes)%list in
  if existsb (fun f => test reTest f) allFiles then Some "test"
  else if existsb (fun f => String.eqb f "package.json" || String.eqb f "package-lock.json")
                  allFiles then Some "chore"
  else if existsb (fun f => test reDocs f) allFiles then Some "docs"
  else if forallb (fun f => test reStyle f) allFiles then Some "style"
  else None.

(** The list handed to [showQuickPick]. *)
Definition typesToShow (changes : GitChanges) : list QuickPickItem :=
  match autoDetected changes with
  | Some detected =>
      if JS.truthy detected then
        match find (fun t => String.eqb (label t) detected) types with
        | Some detectedType =>
            mkItem (label detectedType) (description detectedType ++ " (suggested)")
                   (detail detectedType)
            :: filter (fun t => negb (String.eqb (label t) detected)) types
        | None => types
        end
      else types
  | None => types
  end.

(** [showQuickPick] is the user's answer: the item picked from the list
    shown, or nothing when the pick is dismissed. *)
Definition selectCommitType (showQuickPick : list QuickPickItem -> option QuickPickItem)
           (changes : GitChanges) : option string :=
  match showQuickPick (typesToShow changes) with
  | Some selected => if JS.truthy (label selected) then Some (label selected) else None
  | None => None
  end.

(** ** determineScope *)

(** [/components?/i], [/api|routes?/i], [/utils?|helpers?/i], [/types?/i] *)
Definition reScopeComponents : RegExp.t := mk (Seq (Chars "component") (Opt (Chars "s"))) true.
Definition reScopeApi : RegExp.t :=
  mk (Alt (Chars "api") (Seq (Chars "route") (Opt (Chars "s")))) true.
Definition reScopeUtils : RegExp.t :=
  mk (Alt (Seq (Chars "util") (Opt (Chars "s"))) (Seq (Chars "helper") (Opt (Chars "s")))) true.
Definition reScopeTypes : RegExp.t := mk (Seq (Chars "type") (Opt (Chars "s"))) true.

(** [f.split('/')[0]] *)
Definition firstSegment (f : string) : string :=
  nth 0 (JS.split "/" f) EmptyString.

Definition determineScope (changes : GitChanges) : option string :=
  let allFiles :=
    (modified changes ++ added changes ++ deleted changes ++ renamed changes)%list in
  if (length allFiles =? 0)%nat then None
  else
    let dirs := filter (fun d => negb (String.eqb d "")) (map firstSegment allFiles) in
    let uniqueDirs := JS.uniq dirs in
    if ((length uniqueDirs =? 1)%nat
        && negb (String.eqb (nth 0 uniqueDirs EmptyString) "."))%bool
    then Some (nth 0 uniqueDirs EmptyString)
    else if forallb (fun f => test reScopeComponents f) allFiles then Some "components"
    else if forallb (fun f => test reScopeApi f) allFiles then Some "api"
    else if forallb (fun f => test reScopeUtils f) allFiles then Some "utils"
    else if forallb (fun f => test reScopeTypes f) allFiles then Some "types"
    else None.

(** ** generateSubject, getFileName, categorizeFiles *)

(** [/\.[^/.]+$/] *)
Definition reExtension : RegExp.t :=
  mk (Seq (Chars ".") (Seq (NoneOfPlus "/.") EndOfInput)) false.

Definition getFileName (path : string) : string :=
  let fileName :=
    match JS.whenTruthy (JS.pop (JS.split "/" path)) with
    | Some last => last
    | None => path
    end in
  replace reExtension "" fileName.

(** The [categories] object, in the order of its keys. *)
Definition categories : list (string * RegExp.t) :=
  [ ("components", mk (Seq (Chars "component") (Opt (Chars "s"))) true);
    ("API routes",
      mk (Alt (Chars "api")
           (Alt (Seq (Chars "route") (Opt (Chars "s")))
                (Seq (Chars "controller") (Opt (Chars "s"))))) true);
    ("utilities",
      mk (Alt (Seq (Chars "util") (Opt (Chars "s")))
              (Seq (Chars "helper") (Opt (Chars "s")))) true);
    ("styles",
      mk (Alt (Seq (Chars ".css") EndOfInput)
           (Alt (Seq (Chars ".scss") EndOfInput)
             (Alt (Seq (Chars ".less") EndOfInput)
                  (Seq (Chars "style") (Opt (Chars "s")))))) true);
    ("tests", mk (Alt (Chars "test") (Alt (Chars "spec") (Chars "__tests__"))) true);
    ("configuration", mk (Alt (Chars "config") (Chars ".config.")) true);
    ("types",
      mk (Alt (Seq (Chars "type") (Opt (Chars "s")))
              (Seq (Chars ".d.ts") EndOfInput)) true);
    ("documentation",
      mk (Alt (Chars "readme") (Seq (Chars "doc") (Opt (Chars "s")))) true);
    ("models",
      mk (Alt (Seq (Chars "model") (Opt (Chars "s")))
              (Seq (Chars "schema") (Opt (Chars "s")))) true);
    ("services", mk (Seq (Chars "service") (Opt (Chars "s"))) true) ].

(** [files.filter(f => pattern.test(f)).length] *)
Definition matchCount (pattern : RegExp.t) (files : list string) : nat :=
  length (filter (fun f => test pattern f) files).

(** [matchCount >= files.length * 0.6], on binary64 numbers *)
Definition dominant (pattern : RegExp.t) (files : list string) : bool :=
  Number.geb (Number.ofNat (matchCount pattern files))
             (Number.mul (Number.ofNat (length files)) Number.c0_6).

(** The [for ... of Object.entries(categories)] loop. *)
Fixpoint firstDominant (entries : list (string * RegExp.t)) (files : list string)
  : option string :=
  match entries with
  | [] => None
  | (category, pattern) :: rest =>
      if dominant pattern files then Some category else firstDominant rest files
  end.

Definition categorizeFiles (files : list string) : option string :=
  firstDominant categories files.

Definition generateSubject (changes : GitChanges) (type : string) (totalFiles : nat)
  : string :=
  if (length (added changes) =? totalFiles)%nat then
    if (totalFiles =? 1)%nat then
      "add " ++ getFileName (nth 0 (added changes) EmptyString)
    else
      match JS.whenTruthy (categorizeFiles (added changes)) with
      | Some category => "add " ++ category
      | None => "add " ++ JS.numberToString totalFiles ++ " new files"
      end
  else if (length (deleted changes) =? totalFiles)%nat then
    if (totalFiles =? 1)%nat then
      "remove " ++ getFileName (nth 0 (deleted changes) EmptyString)
    else "remove " ++ JS.numberToString totalFiles ++ " files"
  else if ((length (modified changes) =? 1) && (totalFiles =? 1))%nat then
    "update " ++ getFileName (nth 0 (modified changes) EmptyString)
  else
    let allFiles := (modified changes ++ added changes ++ deleted changes)%list in
    if (totalFiles <=? 3)%nat then
      "update " ++ JS.join ", " (map getFileName (firstn 3 allFiles))
    else
      match JS.whenTruthy (categorizeFiles allFiles) with
      | Some category => "update " ++ category
      | None =>
          if String.eqb type "feat" then "implement new feature"
          else if String.eqb type "fix" then "fix multiple issues"
          else if String.eqb type "refactor" then "refactor code structure"
          else if String.eqb type "docs" then "update documentation"
          else if String.eqb type "test" then "add test coverage"
          else if String.eqb type "style" then "format code"
          else if String.eqb type "chore" then "update dependencies"
          else "update " ++ JS.numberToString totalFiles ++ " files"
      end.

(** ** generateBody, generateSummary *)

(** One [if (n > 0) parts.push(`${n} <what>`)] block. *)
Definition summaryPart (files : list string) (what : string) : list string :=
  if (0 <? length files)%nat then [JS.numberToString (length files) ++ " " ++ what]
  else [].

Definition generateSummary (changes : GitChanges) : string :=
  let parts :=
    (summaryPart (added changes) "added"
     ++ summaryPart (modified changes) "modified"
     ++ summaryPart (deleted changes) "deleted"
     ++ summaryPart (renamed changes) "renamed")%list in
  "Changes: " ++ JS.join ", " parts.

(** One [if (files.length > 0) { header; bullets; '' }] block. *)
Definition listing (header : string) (files : list string) : list string :=
  if (0 <? length files)%nat
  then (header :: map (fun f => ("  - " ++ f)%string) files ++ [EmptyString])%list
  else [].

(** The [lines] array once the four blocks have run. *)
Definition lines (changes : GitChanges) : list string :=
  (listing "Added:" (added changes)
   ++ listing "Modified:" (modified changes)
   ++ listing "Deleted:" (deleted changes)
   ++ listing "Renamed:" (renamed changes))%list.

(** [maxFilesInBody] is the configured [commitGenerator.maxFilesInBody]. *)
Definition generateBody (maxFilesInBody : Z) (changes : GitChanges) (totalFiles : nat)
  : string :=
  if (maxFilesInBody <? Z.of_nat totalFiles)%Z then generateSummary changes
  else JS.trim (JS.join JS.nl (lines changes)).

(** ** generateFooter

    [includeFooter] is the configured [commitGenerator.includeFooter];
    [showInputBox] is the user's answer to the prompt. *)
Definition generateFooter (includeFooter : bool) (showInputBox : option string)
  : option string :=
  if negb includeFooter then None
  else
    match JS.whenTruthy showInputBox with
    | Some issueNumber =>
        if JS.truthy (JS.trim issueNumber)
        then Some ("Closes #" ++ JS.trim issueNumber)
        else None
    | None => None
    end.

(** ** formatCommitMessage *)

Definition formatCommitMessage (structure : CommitStructure) : string :=
  let message := "" in
  let message := message ++ type structure in
  let message :=
    match JS.whenTruthy (scope structure) with
    | Some s => message ++ "(" ++ s ++ ")"
    | None => message
    end in
  let message := message ++ ": " ++ subject structure in
  let message :=
    match JS.whenTruthy (body structure) with
    | Some b => if JS.truthy (JS.trim b) then message ++ JS.nl ++ JS.nl ++ b else message
    | None => message
    end in
  let message :=
    match JS.whenTruthy (footer structure) with
    | Some f => if JS.truthy (JS.trim f) then message ++ JS.nl ++ JS.nl ++ f else message
    | None => message
    end in
  message.

(** ** buildCommitStructure, activate

    The editor and the user, as seen from the command: the configuration, the
    answers given to the two prompts, whether a workspace folder is open. *)
Record Host : Type := mkHost {
  workspaceFolder : bool;
  maxFilesInBody : Z;
  includeFooter : bool;
  showQuickPick : list QuickPickItem -> option QuickPickItem;
  showInputBox : option string
}.

Definition totalFiles (changes : GitChanges) : nat :=
  length (modified changes) + length (added changes) + length (deleted changes)
  + length (renamed changes) + length (untracked changes).

Definition buildCommitStructure (host : Host) (changes : GitChanges)
  : option CommitStructure :=
  let totalFiles := totalFiles changes in
  match selectCommitType (showQuickPick host) changes with
  | None => None
  | Some type =>
      let scope := determineScope changes in
      let subject := generateSubject changes type totalFiles in
      let body := generateBody (maxFilesInBody host) changes totalFiles in
      let footer := generateFooter (includeFooter host) (showInputBox host) in
      Some (mkCommit type scope subject (Some body) footer)
  end.

(** What one run of the command ends in: an error or warning shown, a silent
    return after the type pick is dismissed, or a message handed to
    [setCommitMessage]. *)
Inductive Outcome : Type :=
| ErrorMessage (text : string)
| WarningMessage (text : string)
| Cancelled
| CommitMessage (message : string).

(** [execSync] is what [git status --porcelain] gives: its output, or the
    text of the error it throws. *)
Definition activate (host : Host) (execSync : string + string) : Outcome :=
  if negb (workspaceFolder host) then ErrorMessage "No workspace folder open"
  else
    match execSync with
    | inr error => ErrorMessage ("Failed to generate commit message: " ++ error)
    | inl status =>
        if negb (JS.truthy (JS.trim status)) then WarningMessage "No changes to commit"
        else
          let changes := parseGitStatus status in
          match buildCommitStructure host changes with
          | None => Cancelled
          | Some commitStructure => CommitMessage (formatCommitMessage commitStructure)
          end
    end.

(** ** The rules as the specification words them

    These definitions follow the text of the specification, not the source;
    the theorems below compare them with the functions above. *)

Module Spec.

(** Either of the two status characters is [c]. *)
Definition either (line : string) (c : ascii) : bool :=
  JS.charAtIs line 0 c || JS.charAtIs line 1 c.

(** The decision rule of the status parser, in its priority order. *)
Definition classify (line : string) : option Category :=
  if either line "M" then Some Modified
  else if either line "A" then Some Added
  else if either line "D" then Some Deleted
  else if either line "R" then Some Renamed
  else if JS.charAtIs line 0 "?" && JS.charAtIs line 1 "?" then Some Untracked
  else None.

(** The path of a status line: what follows the two status characters and
    the space. *)
Definition path (line : string) : string := JS.trim (JS.drop 3 line).

Definition place (changes : GitChanges) (line : string) : GitChanges :=
  match classify line with
  | Some Modified =>
      mkChanges (modified changes ++ [path line]) (added changes) (deleted changes)
                (renamed changes) (untracked changes)
  | Some Added =>
      mkChanges (modified changes) (added changes ++ [path line]) (deleted changes)
                (renamed changes) (untracked changes)
  | Some Deleted =>
      mkChanges (modified changes) (added changes) (deleted changes ++ [path line])
                (renamed changes) (untracked changes)
  | Some Renamed =>
      mkChanges (modified changes) (added changes) (deleted changes)
                (renamed changes ++ [path line]) (untracked changes)
  | Some Untracked =>
      mkChanges (modified changes) (added changes) (deleted changes)
                (renamed changes) (untracked changes ++ [path line])
  | None => changes
  end.

(** "At least 60% of the files match", on exact integers. *)
Definition atLeast60Percent (matching total : nat) : bool :=
  (3 * total <=? 5 * matching)%nat.

(** A string with no character other than white space. *)
Fixpoint blank (s : string) : bool :=
  match s with
  | EmptyString => true
  | String c s' => JS.isWhiteSpace c && blank s'
  end.

(** The parenthesized scope of the header. *)
Definition scopePart (scope : option string) : string :=
  match scope with
  | Some (String c s) => "(" ++ String c s ++ ")"
  | _ => ""
  end.

(** A body or footer block after one blank line, left out when blank. *)
Definition blockPart (block : option string) : string :=
  match block with
  | Some b => if blank b then "" else JS.nl ++ JS.nl ++ b
  | None => ""
  end.

(** The non-zero counts of the summary, in the order
    added/modified/deleted/renamed. *)
Definition summaryCounts (changes : GitChanges) : list (nat * string) :=
  filter (fun p => negb (fst p =? 0)%nat)
         [ (length (added changes), "added");
           (length (modified changes), "modified");
           (length (deleted changes), "deleted");
           (length (renamed changes), "renamed") ].

Definition summary (changes : GitChanges) : string :=
  "Changes: "
  ++ JS.join ", " (map (fun p => JS.numberToString (fst p) ++ " " ++ snd p)
                       (summaryCounts changes)).

(** The fixed per-type phrase of the subject composer, the last row of
    its decision table. *)
Definition fallbackPhrase (type : string) (total : nat) : string :=
  if String.eqb type "feat" then "implement new feature"
  else if String.eqb type "fix" then "fix multiple issues"
  else if String.eqb type "refactor" then "refactor code structure"
  else if String.eqb type "docs" then "update documentation"
  else if String.eqb type "test" then "add test coverage"
  else if String.eqb type "style" then "format code"
  else if String.eqb type "chore" then "update dependencies"
  else "update " ++ JS.numberToString total ++ " files".

(** The first path segment of a path: the text before its first [/].  A
    path without [/] has none. *)
Fixpoint beforeSlash (path : string) : option string :=
  match path with
  | EmptyString => None
  | String c rest =>
      if Ascii.eqb c "/" then Some EmptyString
      else match beforeSlash rest with
           | Some s => Some (String c s)
           | None => None
           end
  end.

(** The first segments of all the modified, added, deleted and renamed
    paths, empty segments left out. *)
Definition segments (changes : GitChanges) : list string :=
  filter JS.truthy
    (flat_map (fun p => match beforeSlash p with
                        | Some s => [s]
                        | None => []
                        end)
              (modified changes ++ added changes ++ deleted changes ++ renamed changes)%list).

(** Their distinct values other than ["."]. *)
Definition valuesOtherThanDot (changes : GitChanges) : list string :=
  nodup string_dec (filter (fun s => negb (String.eqb s ".")) (segments changes)).

End Spec.

(** ** Shapes of lines and paths

    Predicates and projections used to state what the functions above do on
    whole families of inputs. *)

Module Shape.

Definition sameCategory (a b : Category) : bool :=
  match a, b with
  | Modified, Modified | Added, Added | Deleted, Deleted
  | Renamed, Renamed | Untracked, Untracked => true
  | _, _ => false
  end.

(** The lines the decision rule sends to [cat]. *)
Definition linesOf (cat : Category) (lines : list string) : list string :=
  filter (fun line =>
            match Spec.classify line with
            | Some c => sameCategory c cat
            | None => false
            end) lines.

(** Their paths, in the order of the lines. *)
Definition pathsOf (cat : Category) (lines : list string) : list string :=
  map Spec.path (linesOf cat lines).

(** The lines the decision rule sends to some category. *)
Definition classified (lines : list string) : list string :=
  filter (fun line =>
            match Spec.classify line with
            | Some _ => true
            | None => false
            end) lines.

(** Every character of [s] satisfies [p]. *)
Fixpoint allChars (p : ascii -> bool) (s : string) : bool :=
  match s with
  | EmptyString => true
  | String c s' => p c && allChars p s'
  end.

Definition noWhiteSpace (s : string) : bool :=
  allChars (fun c => negb (JS.isWhiteSpace c)) s.

Definition noSlash (s : string) : bool :=
  allChars (fun c => negb (Ascii.eqb c "/")) s.

Definition noDot (s : string) : bool :=
  allChars (fun c => negb (Ascii.eqb c ".")) s.

(** A file extension: one character or more, none of them [/] or [.]. *)
Definition isExtension (s : string) : bool :=
  JS.truthy s && allChars (fun c => negb (Ascii.eqb c "/" || Ascii.eqb c ".")) s.

(** No white space at either end. *)
Definition trimmed (s : string) : Prop := JS.trim s = s.

(** All the paths that take part in the scope and in the body. *)
Definition tracked (changes : GitChanges) : list string :=
  (modified changes ++ added changes ++ deleted changes ++ renamed changes)%list.

End Shape.

(** * Properties *)

(** ** Strings *)

Lemma append_assoc (a b c : string) : (a ++ b) ++ c = a ++ b ++ c.
Proof. induction a as [|x a IH]; simpl; [reflexivity | now rewrite IH]. Qed.

Lemma append_empty_r (a : string) : a ++ "" = a.
Proof. induction a as [|x a IH]; simpl; [reflexivity | now rewrite IH]. Qed.

Lemma startsWith_append (p s : string) :
  JS.startsWith p s = true -> exists rest, s = p ++ rest.
Proof.
  revert s; induction p as [|a p IH]; intros s H.
  - now exists s.
  - destruct s as [|b s]; [discriminate|]. simpl in H.
    apply andb_true_iff in H as [Hab Hps].
    apply Ascii.eqb_eq in Hab as <-.
    destruct (IH _ Hps) as [rest ->]. now exists rest.
Qed.

Lemma trimStart_blank (s : string) : Spec.blank s = true -> JS.trimStart s = "".
Proof.
  induction s as [|c s IH]; simpl; [reflexivity|].
  intros H. apply andb_true_iff in H as [-> Hs]. auto.
Qed.

Lemma trimStart_not_blank (s : string) :
  Spec.blank s = false ->
  exists c s', JS.trimStart s = String c s' /\ JS.isWhiteSpace c = false.
Proof.
  induction s as [|c s IH]; simpl; [discriminate|].
  destruct (JS.isWhiteSpace c) eqn:Hc; simpl; [exact IH|].
  intros _. now exists c, s.
Qed.

Lemma trimEnd_keeps_first (c : ascii) (s : string) :
  JS.isWhiteSpace c = false -> JS.truthy (JS.trimEnd (String c s)) = true.
Proof. intros Hc. simpl. rewrite Hc. now destruct (JS.trimEnd s). Qed.

Lemma trim_truthy (s : string) : JS.truthy (JS.trim s) = negb (Spec.blank s).
Proof.
  unfold JS.trim. destruct (Spec.blank s) eqn:Hb.
  - now rewrite trimStart_blank.
  - destruct (trimStart_not_blank _ Hb) as (c & s' & -> & Hc).
    now rewrite trimEnd_keeps_first.
Qed.

Lemma trim_empty_iff (s : string) : JS.trim s = "" <-> Spec.blank s = true.
Proof.
  pose proof (trim_truthy s) as H. split; intros E.
  - rewrite E in H. simpl in H. now destruct (Spec.blank s).
  - rewrite E in H. now destruct (JS.trim s).
Qed.

(** ** The status parser *)

Section StatusCode.
Local Opaque Ascii.eqb.

Lemma statusCode_charAt (line : string) (i : nat) (c : ascii) :
  (i < 2)%nat -> JS.charAtIs (JS.substring 0 2 line) i c = JS.charAtIs line i c.
Proof.
  intros Hi. unfold JS.substring, JS.charAtIs.
  destruct line as [|a [|b rest]]; destruct i as [|[|i]]; try lia; reflexivity.
Qed.

Lemma statusCode_includes (line : string) (c : ascii) :
  JS.includes (String c EmptyString) (JS.substring 0 2 line) = Spec.either line c.
Proof.
  unfold JS.substring, Spec.either, JS.charAtIs.
  destruct line as [|a [|b rest]]; simpl;
    rewrite ?(Ascii.eqb_sym c); rewrite ?andb_true_r, ?orb_false_r; reflexivity.
Qed.

Lemma statusCode_untracked (line : string) :
  String.eqb (JS.substring 0 2 line) "??"
  = JS.charAtIs line 0 "?" && JS.charAtIs line 1 "?".
Proof.
  unfold JS.substring, JS.charAtIs.
  destruct line as [|a [|b rest]]; simpl; try reflexivity.
  destruct (Ascii.eqb a "?"), (Ascii.eqb b "?"); reflexivity.
Qed.
End StatusCode.

Lemma parseLine_place (changes : GitChanges) (line : string) :
  parseLine changes line = Spec.place changes line.
Proof.
  unfold parseLine, Spec.place, Spec.classify, Spec.path, JS.substringFrom.
  rewrite !statusCode_includes, statusCode_untracked, !statusCode_charAt by lia.
  unfold Spec.either.
  repeat match goal with
         | |- context [JS.charAtIs line ?i ?c] => destruct (JS.charAtIs line i c)
         end; reflexivity.
Qed.


(** ** The scope resolver *)

Lemma uniq_constant (d : string) (l : list string) :
  l <> [] -> (forall x, In x l -> x = d) -> JS.uniq l = [d].
Proof.
  induction l as [|x l IH]; intros Hne Hall; [congruence|].
  assert (x = d) as -> by (apply Hall; now left).
  simpl. f_equal. destruct l as [|y l]; [reflexivity|].
  rewrite IH; [|discriminate|intros z Hz; apply Hall; now right].
  simpl. now rewrite String.eqb_refl.
Qed.

Lemma filter_truthy_nonempty (l : list string) :
  filter (fun d => negb (String.eqb d "")) l = filter JS.truthy l.
Proof. apply filter_ext. now intros [|c s]. Qed.

Lemma beforeSlash_firstSegment (p s : string) :
  Spec.beforeSlash p = Some s -> firstSegment p = s.
Proof.
  unfold firstSegment. revert s. induction p as [|c p IH]; intros s; [discriminate|].
  cbn [Spec.beforeSlash JS.split]. destruct (Ascii.eqb c "/"); [now intros [= <-]|].
  destruct (Spec.beforeSlash p) as [s'|]; [|discriminate]. intros [= <-].
  specialize (IH s' eq_refl). destruct (JS.split "/" p) as [|h t]; simpl in *; now subst.
Qed.

Lemma segments_of_paths_with_slash (l : list string) :
  (forall p, In p l -> Spec.beforeSlash p <> None) ->
  flat_map (fun p => match Spec.beforeSlash p with
                     | Some s => [s]
                     | None => []
                     end) l
  = map firstSegment l.
Proof.
  induction l as [|p l IH]; intros H; [reflexivity|].
  cbn [flat_map map]. rewrite IH by (intros q Hq; apply H; now right).
  destruct (Spec.beforeSlash p) as [s|] eqn:E.
  - now rewrite (beforeSlash_firstSegment p s E).
  - elim (H p); [now left|exact E].
Qed.

(** C8, as amended.  When every modified, added, deleted and renamed path
    contains a [/], and the first path segments of these paths, empty
    segments left out, are one and the same value [d], and [d] is not
    ["."], the scope is [d]. *)
Theorem determineScope_common_directory (changes : GitChanges) (d : string) :
  (forall p,
      In p (modified changes ++ added changes ++ deleted changes ++ renamed changes) ->
      Spec.beforeSlash p <> None) ->
  Spec.segments changes <> [] ->
  (forall x, In x (Spec.segments changes) -> x = d) ->
  d <> "." ->
  determineScope changes = Some d.
Proof.
  unfold Spec.segments, determineScope. intros Hslash Hne Hall Hdot.
  set (allFiles := (modified changes ++ added changes ++ deleted changes
                    ++ renamed changes)%list) in *.
  rewrite (segments_of_paths_with_slash allFiles Hslash) in Hne, Hall.
  destruct allFiles as [|f fs] eqn:Hfiles; [now elim Hne|].
  cbv beta iota zeta. change (length (f :: fs) =? 0)%nat with false. cbv iota.
  rewrite filter_truthy_nonempty, (uniq_constant d) by assumption.
  simpl. apply String.eqb_neq in Hdot. now rewrite Hdot.
Qed.

Lemma determineScope_common_directory_witness :
  let changes :=
    mkChanges ["src/auth/Login.tsx"] ["src/auth/Register.tsx"] [] ["/y"] [] in
  (forall p,
      In p (modified changes ++ added changes ++ deleted changes ++ renamed changes) ->
      Spec.beforeSlash p <> None)
  /\ Spec.segments changes <> []
  /\ (forall x, In x (Spec.segments changes) -> x = "src")
  /\ "src" <> "."
  /\ determineScope changes = Some "src".
Proof.
  assert (H0 : forall p,
             In p (modified (mkChanges ["src/auth/Login.tsx"] ["src/auth/Register.tsx"]
                                       [] ["/y"] [])
                   ++ added (mkChanges ["src/auth/Login.tsx"] ["src/auth/Register.tsx"]
                                       [] ["/y"] [])
                   ++ deleted (mkChanges ["src/auth/Login.tsx"] ["src/auth/Register.tsx"]
                                         [] ["/y"] [])
                   ++ renamed (mkChanges ["src/auth/Login.tsx"] ["src/auth/Register.tsx"]
                                         [] ["/y"] [])) ->
             Spec.beforeSlash p <> None)
    by (simpl; intros p [<-|[<-|[<-|[]]]]; discriminate).
  assert (H1 : Spec.segments
                 (mkChanges ["src/auth/Login.tsx"] ["src/auth/Register.tsx"] [] ["/y"] [])
               <> []) by discriminate.
  assert (H2 : forall x,
             In x (Spec.segments
                     (mkChanges ["src/auth/Login.tsx"] ["src/auth/Register.tsx"] [] ["/y"] []))
             -> x = "src") by (simpl; intros x [<-|[<-|[]]]; reflexivity).
  assert (H3 : "src" <> ".") by discriminate.
  exact (conj H0 (conj H1 (conj H2 (conj H3
           (determineScope_common_directory _ _ H0 H1 H2 H3))))).
Defined.

(** C8, as stated, fails.  With the paths [./a.ts] and [src/b.ts] the first
    segments are ["."] and [src]: one value other than ["."] is left, yet
    the distinct segments are two and there is no scope.  With
    [package.json] and [src/index.ts] the only text before a first [/] is
    [src], yet there is no scope: the file name is counted as a segment. *)
Lemma determineScope_one_value_counterexample :
  (let changes := mkChanges ["./a.ts"; "src/b.ts"] [] [] [] [] in
   Spec.valuesOtherThanDot changes = ["src"]
   /\ determineScope changes = None
   /\ determineScope changes <> Some "src")
  /\ (let changes := mkChanges ["package.json"; "src/index.ts"] [] [] [] [] in
      Spec.valuesOtherThanDot changes = ["src"]
      /\ determineScope changes = None
      /\ determineScope changes <> Some "src").
Proof. repeat split; discriminate. Qed.

(** C3. The change set with the single modified path [README.md]: the
    suggested type is [docs] and the subject is [update README]; the scope
    resolver returns the file name [README.md] as scope. *)
Theorem single_readme_scenario (type : string) :
  let changes := mkChanges ["README.md"] [] [] [] [] in
  autoDetected changes = Some "docs"
  /\ hd_error (map label (typesToShow changes)) = Some "docs"
  /\ generateSubject changes type (totalFiles changes) = "update README"
  /\ determineScope changes = Some "README.md".
Proof. repeat split; reflexivity. Qed.

(** ** Binary64 arithmetic: the threshold [files.length * 0.6] *)

Section Binary64.
Local Open Scope Z_scope.

Lemma iter_pos_nat {A : Type} (f : A -> A) (p : positive) (x : A) :
  iter_pos f p x = Nat.iter (Pos.to_nat p) f x.
Proof.
  revert x; induction p as [p IH|p IH|]; intros x; cbn [iter_pos].
  - rewrite !IH, Pos2Nat.inj_xI.
    replace (S (2 * Pos.to_nat p)) with (Pos.to_nat p + S (Pos.to_nat p))%nat by lia.
    now rewrite Nat.iter_add, Nat.iter_succ_r.
  - rewrite !IH, Pos2Nat.inj_xO.
    replace (2 * Pos.to_nat p)%nat with (Pos.to_nat p + Pos.to_nat p)%nat by lia.
    now rewrite Nat.iter_add.
  - reflexivity.
Qed.

Lemma shr_1_nonneg (m : Z) (r s : bool) :
  0 <= m -> shr_1 (Build_shr_record m r s) = Build_shr_record (m / 2) (Z.odd m) (r || s).
Proof.
  intros Hm. rewrite <- Z.div2_div.
  destruct m as [|[p|p|]|]; try lia; reflexivity.
Qed.

Lemma shr_iter (k : nat) (m : Z) :
  0 <= m ->
  Nat.iter (S k) shr_1 (Build_shr_record m false false)
  = Build_shr_record (m / 2 ^ Z.of_nat (S k)) (Z.odd (m / 2 ^ Z.of_nat k))
                     (negb (m mod 2 ^ Z.of_nat k =? 0)).
Proof.
  intros Hm. induction k as [|k IH].
  - change (Nat.iter 1 shr_1 ?x) with (shr_1 x). rewrite shr_1_nonneg by assumption.
    change (2 ^ Z.of_nat 1) with 2. change (2 ^ Z.of_nat 0) with 1.
    now rewrite Z.div_1_r, Z.mod_1_r.
  - change (Nat.iter (S (S k)) shr_1 ?x) with (shr_1 (Nat.iter (S k) shr_1 x)).
    rewrite IH, shr_1_nonneg by (apply Z.div_pos; lia).
    rewrite Z.div_div by lia.
    replace (2 ^ Z.of_nat (S k) * 2) with (2 ^ Z.of_nat (S (S k)))
      by (rewrite (Nat2Z.inj_succ (S k)), Z.pow_succ_r; lia).
    f_equal.
    rewrite (Nat2Z.inj_succ k), Z.pow_succ_r by lia.
    rewrite (Z.mul_comm 2), Z.rem_mul_r by lia.
    set (a := m mod 2 ^ Z.of_nat k). set (b := m / 2 ^ Z.of_nat k).
    assert (Ha : 0 <= a < 2 ^ Z.of_nat k) by (apply Z.mod_pos_bound; lia).
    rewrite (Zmod_odd b).
    destruct (Z.odd b); destruct (Z.eqb_spec a 0);
      match goal with |- _ = negb (?x =? 0) => destruct (Z.eqb_spec x 0) end;
      simpl; try reflexivity; exfalso; lia.
Qed.

Lemma digits2_pos_bounds (p : positive) :
  2 ^ (Zpos (digits2_pos p) - 1) <= Zpos p < 2 ^ Zpos (digits2_pos p).
Proof.
  induction p as [p IH|p IH|]; cbn [digits2_pos]; [| |simpl; lia].
  all: rewrite Pos2Z.inj_succ, Z.pow_succ_r by lia.
  all: replace (Z.succ (Zpos (digits2_pos p)) - 1)
         with (Z.succ (Zpos (digits2_pos p) - 1)) by lia.
  all: rewrite Z.pow_succ_r by lia; lia.
Qed.

Lemma digits2_pos_unique (p : positive) (k : Z) :
  2 ^ (k - 1) <= Zpos p < 2 ^ k -> Zpos (digits2_pos p) = k.
Proof.
  intros [Hlo Hhi]. pose proof (digits2_pos_bounds p) as [Dlo Dhi].
  set (d := Zpos (digits2_pos p)) in *.
  assert (0 < k) by (destruct k; simpl in *; lia).
  destruct (Z.lt_trichotomy d k) as [Hlt|[Heq|Hgt]]; [|assumption|].
  - assert (2 ^ d <= 2 ^ (k - 1)) by (apply Z.pow_le_mono_r; lia). lia.
  - assert (2 ^ k <= 2 ^ (d - 1)) by (apply Z.pow_le_mono_r; lia). lia.
Qed.

Lemma round_of_shr (P : Z) (k : nat) :
  0 <= P ->
  let mrs := Nat.iter (S k) shr_1 (Build_shr_record P false false) in
  round_nearest_even (shr_m mrs) (loc_of_shr_record mrs) = Number.roundShift P (Z.of_nat (S k)).
Proof.
  intros HP mrs. subst mrs. rewrite shr_iter by assumption.
  unfold Number.roundShift. cbn [shr_m].
  rewrite (Nat2Z.inj_succ k), Z.pow_succ_r by lia.
  set (h := 2 ^ Z.of_nat k). assert (Hh : 0 < h) by (apply Z.pow_pos_nonneg; lia).
  rewrite (Z.mul_comm 2 h), Z.rem_mul_r by lia.
  set (a := P mod h). set (b := P / h).
  assert (Ha : 0 <= a < h) by (apply Z.mod_pos_bound; lia).
  rewrite (Zmod_odd b).
  destruct (Z.odd b); destruct (Z.eqb_spec a 0) as [E|E];
    cbn [negb loc_of_shr_record round_nearest_even].
  - replace (2 * (a + h * 1) ?= h * 2) with Eq by (symmetry; apply Z.compare_eq_iff; lia).
    reflexivity.
  - replace (2 * (a + h * 1) ?= h * 2) with Gt by (symmetry; apply Z.compare_gt_iff; lia).
    reflexivity.
  - replace (2 * (a + h * 0) ?= h * 2) with Lt by (symmetry; apply Z.compare_lt_iff; lia).
    reflexivity.
  - replace (2 * (a + h * 0) ?= h * 2) with Lt by (symmetry; apply Z.compare_lt_iff; lia).
    reflexivity.
Qed.

Lemma roundShift_bounds (P sh : Z) :
  0 <= P -> 0 < sh ->
  let q := P / 2 ^ sh in
  (Number.roundShift P sh = q /\ 2 * (P - q * 2 ^ sh) <= 2 ^ sh)
  \/ (Number.roundShift P sh = q + 1 /\ 2 ^ sh <= 2 * (P - q * 2 ^ sh)).
Proof.
  intros HP Hsh q. unfold Number.roundShift. fold q.
  assert (Hpow : 0 < 2 ^ sh) by (apply Z.pow_pos_nonneg; lia).
  pose proof (Z.div_mod P (2 ^ sh) ltac:(lia)) as Hdm. fold q in Hdm.
  replace (P - q * 2 ^ sh) with (P mod 2 ^ sh) by lia.
  destruct (Z.compare_spec (2 * (P mod 2 ^ sh)) (2 ^ sh)).
  - destruct (Z.even q); [left|right]; split; lia.
  - left; split; lia.
  - right; split; lia.
Qed.

Lemma binary_round_aux_normal (mx : positive) (ex sh : Z) :
  sh = Zpos (digits2_pos mx) - 53 -> 0 < sh ->
  -1074 <= ex + sh -> ex + sh + 1 <= 971 ->
  let q := Number.roundShift (Zpos mx) sh in
  binary_round_aux 53 1024 false (Zpos mx) ex loc_Exact
  = if q =? 2 ^ 53 then S754_finite false (Z.to_pos (2 ^ 52)) (ex + sh + 1)
    else S754_finite false (Z.to_pos q) (ex + sh).
Proof.
  intros Hsh Hpos Hlo Hhi q.
  destruct sh as [|psh|psh]; try lia.
  pose proof (digits2_pos_bounds mx) as [Dlo Dhi].
  unfold binary_round_aux, shr_fexp at 1.
  cbn [Zdigits2 shr_record_of_loc].
  assert (Hfexp : fexp 53 1024 (Z.pos (digits2_pos mx) + ex) - ex = Z.pos psh).
  { unfold fexp, emin. lia. }
  rewrite Hfexp. cbn [shr]. rewrite iter_pos_nat.
  destruct (Pos.to_nat psh) as [|k] eqn:Hk; [lia|].
  pose proof (round_of_shr (Zpos mx) k ltac:(lia)) as Hr. cbv zeta in Hr. rewrite Hr.
  replace (Z.of_nat (S k)) with (Zpos psh) by (rewrite <- Hk; now rewrite positive_nat_Z).
  fold q. clear Hr Hk k.
  set (e' := ex + Zpos psh) in *.
  assert (Hpow : 0 < 2 ^ Zpos psh) by (apply Z.pow_pos_nonneg; lia).
  assert (Hq : 2 ^ 52 <= q <= 2 ^ 53).
  { replace (Zpos (digits2_pos mx)) with (Zpos psh + 53) in Dlo, Dhi by lia.
    replace (Zpos psh + 53 - 1) with (52 + Zpos psh) in Dlo by lia.
    rewrite Z.pow_add_r in Dlo, Dhi by lia.
    assert (2 ^ 52 <= Zpos mx / 2 ^ Zpos psh) by (apply Z.div_le_lower_bound; lia).
    assert (Zpos mx / 2 ^ Zpos psh < 2 ^ 53) by (apply Z.div_lt_upper_bound; lia).
    destruct (roundShift_bounds (Zpos mx) (Zpos psh)) as [[E _]|[E _]]; try lia;
      fold q in E; lia. }
  destruct (Z.eqb_spec q (2 ^ 53)) as [E|E].
  - rewrite E. unfold shr_fexp.
    replace (fexp 53 1024 (Zdigits2 (2 ^ 53) + e') - e') with 1
      by (change (Zdigits2 (2 ^ 53)) with 54; unfold fexp, emin; lia).
    cbn [shr_record_of_loc shr iter_pos]. simpl shr_1. cbn [shr_m].
    replace (e' + 1 <=? 1024 - 53) with true by (symmetry; apply Z.leb_le; lia).
    reflexivity.
  - destruct q as [|pq|pq] eqn:Eq; try lia.
    unfold shr_fexp.
    replace (fexp 53 1024 (Zdigits2 (Zpos pq) + e') - e') with 0.
    2:{ cbn [Zdigits2]. rewrite (digits2_pos_unique pq 53) by (simpl; lia).
        unfold fexp, emin. lia. }
    cbn [shr_record_of_loc shr shr_m].
    replace (e' <=? 1024 - 53) with true by (symmetry; apply Z.leb_le; lia).
    reflexivity.
Qed.

Lemma binary_round_aux_exact (mx : positive) (ex : Z) :
  Zpos (digits2_pos mx) = 53 -> -1074 <= ex <= 971 ->
  binary_round_aux 53 1024 false (Zpos mx) ex loc_Exact = S754_finite false mx ex.
Proof.
  intros Hd Hex. unfold binary_round_aux, shr_fexp.
  cbn [Zdigits2 shr_record_of_loc]. rewrite Hd.
  replace (fexp 53 1024 (53 + ex) - ex) with 0 by (unfold fexp, emin; lia).
  cbn [shr shr_m loc_of_shr_record round_nearest_even Zdigits2]. rewrite Hd.
  replace (fexp 53 1024 (53 + ex) - ex) with 0 by (unfold fexp, emin; lia).
  cbn [shr shr_m].
  replace (ex <=? 1024 - 53) with true by (symmetry; apply Z.leb_le; lia).
  reflexivity.
Qed.

Lemma iter_xO (k m : positive) : Zpos (Pos.iter xO m k) = Zpos m * 2 ^ Zpos k.
Proof.
  rewrite <- (positive_nat_Z k), Pos2Nat.inj_iter.
  induction (Pos.to_nat k) as [|n IH]; [simpl; lia|].
  rewrite Nat2Z.inj_succ, Z.pow_succ_r by lia.
  cbn [nat_rect]. rewrite Pos2Z.inj_xO, IH. lia.
Qed.

(** A positive integer below 2^32 as a binary64 number: a 53-bit mantissa
    and an exponent between -52 and -21. *)
Lemma ofNat_normal (n : nat) :
  0 < Z.of_nat n < 2 ^ 32 ->
  exists (a : positive) (ea : Z),
    Number.ofNat n = S754_finite false a ea
    /\ Zpos (digits2_pos a) = 53
    /\ -52 <= ea <= -21
    /\ Zpos a = Z.of_nat n * 2 ^ (- ea).
Proof.
  intros Hn. unfold Number.ofNat, Number.prec, Number.emax, binary_normalize.
  destruct (Z.of_nat n) as [|p|p] eqn:Ep; try lia.
  pose proof (digits2_pos_bounds p) as [Dlo Dhi].
  set (d := Zpos (digits2_pos p)) in *.
  assert (Hd : 1 <= d <= 32).
  { split; [subst d; lia|].
    destruct (Z_le_gt_dec d 32) as [|Hgt]; [assumption|].
    assert (2 ^ 32 <= 2 ^ (d - 1)) by (apply Z.pow_le_mono_r; lia). lia. }
  unfold binary_round, shl_align. fold d.
  replace (fexp 53 1024 (d + 0) - 0) with (d - 53) by (unfold fexp, emin; lia).
  replace (fexp 53 1024 (d + 0)) with (d - 53) by (unfold fexp, emin; lia).
  destruct (d - 53) as [|k|k] eqn:Ek; try lia.
  assert (Hval : Zpos (Pos.iter xO p k) = Zpos p * 2 ^ Zpos k) by apply iter_xO.
  assert (Hdig : Zpos (digits2_pos (Pos.iter xO p k)) = 53).
  { apply digits2_pos_unique. rewrite Hval.
    replace 53 with (d + Zpos k) at 2 by lia.
    replace (53 - 1) with (d - 1 + Zpos k) by lia.
    rewrite !Z.pow_add_r by lia.
    assert (0 < 2 ^ Zpos k) by (apply Z.pow_pos_nonneg; lia). nia. }
  rewrite binary_round_aux_exact by (assumption || lia).
  exists (Pos.iter xO p k), (Zneg k). repeat split; try lia.
  rewrite Hval. reflexivity.
Qed.

Lemma SFleb_normal (a b : positive) (ea eb K : Z) :
  Zpos (digits2_pos a) = 53 -> Zpos (digits2_pos b) = 53 ->
  0 <= ea + K -> 0 <= eb + K ->
  SFleb (S754_finite false a ea) (S754_finite false b eb)
  = (Zpos a * 2 ^ (ea + K) <=? Zpos b * 2 ^ (eb + K)).
Proof.
  intros Ha Hb Hea Heb.
  pose proof (digits2_pos_bounds a) as Ba. pose proof (digits2_pos_bounds b) as Bb.
  rewrite Ha in Ba. rewrite Hb in Bb. change (2 ^ (53 - 1)) with (2 ^ 52) in *.
  assert (Hpa : 0 < 2 ^ (ea + K)) by (apply Z.pow_pos_nonneg; lia).
  assert (Hpb : 0 < 2 ^ (eb + K)) by (apply Z.pow_pos_nonneg; lia).
  unfold SFleb, SFcompare.
  destruct (Z.compare_spec ea eb) as [E|E|E].
  - subst eb. rewrite Pos.compare_cont_spec. cbn [Pos.switch_Eq].
    change (Pos.compare a b) with (Z.compare (Zpos a) (Zpos b)).
    destruct (Z.compare_spec (Zpos a) (Zpos b)); symmetry;
      [apply Z.leb_le; apply Z.mul_le_mono_nonneg_r; lia
      |apply Z.leb_le; apply Z.mul_le_mono_nonneg_r; lia
      |apply Z.leb_gt; apply Z.mul_lt_mono_pos_r; lia].
  - symmetry. apply Z.leb_le.
    replace (eb + K) with (ea + K + (eb - ea)) by lia.
    rewrite (Z.pow_add_r 2 (ea + K)) by lia.
    assert (HY : 2 ^ 1 <= 2 ^ (eb - ea)) by (apply Z.pow_le_mono_r; lia).
    change (2 ^ 1) with 2 in HY.
    set (X := 2 ^ (ea + K)) in *. set (Y := 2 ^ (eb - ea)) in *.
    assert (H1 : Zpos a * X <= 2 ^ 53 * X) by (apply Z.mul_le_mono_nonneg_r; lia).
    assert (H2 : 2 ^ 52 * X <= Zpos b * X) by (apply Z.mul_le_mono_nonneg_r; lia).
    assert (H3 : 2 * (Zpos b * X) <= Y * (Zpos b * X))
      by (apply Z.mul_le_mono_nonneg_r; lia).
    replace (Zpos b * (X * Y)) with (Y * (Zpos b * X)) by ring. lia.
  - symmetry. apply Z.leb_gt.
    replace (ea + K) with (eb + K + (ea - eb)) by lia.
    rewrite (Z.pow_add_r 2 (eb + K)) by lia.
    assert (HY : 2 ^ 1 <= 2 ^ (ea - eb)) by (apply Z.pow_le_mono_r; lia).
    change (2 ^ 1) with 2 in HY.
    set (X := 2 ^ (eb + K)) in *. set (Y := 2 ^ (ea - eb)) in *.
    assert (H1 : Zpos b * X < 2 ^ 53 * X) by (apply Z.mul_lt_mono_pos_r; lia).
    assert (H2 : 2 ^ 52 * X <= Zpos a * X) by (apply Z.mul_le_mono_nonneg_r; lia).
    assert (H3 : 2 * (Zpos a * X) <= Y * (Zpos a * X))
      by (apply Z.mul_le_mono_nonneg_r; lia).
    replace (Zpos a * (X * Y)) with (Y * (Zpos a * X)) by ring. lia.
Qed.

(** The product [n * 0.6] of a positive integer below 2^32: a 53-bit
    mantissa [q] at exponent [e], where [q] is the exact product of the
    mantissas shifted right by [sh] bits and rounded by at most one unit. *)
Lemma mul_0_6_normal (a : positive) (ea : Z) :
  Zpos (digits2_pos a) = 53 -> -52 <= ea <= -21 ->
  exists (q : positive) (e sh r : Z),
    Number.mul (S754_finite false a ea) Number.c0_6 = S754_finite false q e
    /\ Zpos (digits2_pos q) = 53
    /\ -53 <= e
    /\ 52 <= sh <= 53
    /\ (r = 0 \/ r = 1)
    /\ Zpos q * 2 ^ (e + 106) = ((Zpos a * 5404319552844595) / 2 ^ sh + r) * 2 ^ (ea + 53 + sh).
Proof.
  intros Ha Hea.
  pose proof (digits2_pos_bounds a) as Ba. rewrite Ha in Ba.
  change (2 ^ (53 - 1)) with (2 ^ 52) in Ba.
  unfold Number.mul, Number.c0_6, Number.prec, Number.emax, SFmul. cbn [xorb].
  set (P := (a * 5404319552844595)%positive).
  assert (HP : Zpos P = Zpos a * 5404319552844595) by reflexivity.
  pose proof (digits2_pos_bounds P) as [Dlo Dhi].
  set (D := Zpos (digits2_pos P)) in *.
  assert (HD : 105 <= D <= 106).
  { assert (2 ^ 104 <= Zpos P < 2 ^ 106) by (rewrite HP; simpl; lia).
    split.
    - destruct (Z_le_gt_dec 105 D) as [|Hgt]; [assumption|].
      assert (2 ^ D <= 2 ^ 104) by (apply Z.pow_le_mono_r; lia). lia.
    - destruct (Z_le_gt_dec D 106) as [|Hgt]; [assumption|].
      assert (2 ^ 106 <= 2 ^ (D - 1)) by (apply Z.pow_le_mono_r; lia). lia. }
  rewrite (binary_round_aux_normal P (ea + -53) (D - 53)) by (subst D; lia).
  set (sh := D - 53) in *.
  assert (Hq0 : 2 ^ 52 <= Zpos P / 2 ^ sh < 2 ^ 53).
  { assert (Hpow : 0 < 2 ^ sh) by (apply Z.pow_pos_nonneg; lia).
    replace D with (sh + 53) in Dlo, Dhi by (subst sh; lia).
    replace (sh + 53 - 1) with (52 + sh) in Dlo by lia.
    rewrite Z.pow_add_r in Dlo, Dhi by lia.
    split; [apply Z.div_le_lower_bound; lia|apply Z.div_lt_upper_bound; lia]. }
  destruct (roundShift_bounds (Zpos P) sh ltac:(lia) ltac:(lia)) as [[Hr _]|[Hr _]];
    rewrite Hr; rewrite <- HP.
  - destruct (Z.eqb_spec (Zpos P / 2 ^ sh) (2 ^ 53)) as [E|E]; [lia|].
    destruct (Zpos P / 2 ^ sh) as [|q|q] eqn:Eq; try lia.
    exists q, (ea + -53 + sh), sh, 0. cbn [Z.to_pos].
    split; [reflexivity|]. split; [apply digits2_pos_unique; simpl; lia|].
    split; [lia|]. split; [lia|]. split; [now left|].
    f_equal; [lia|f_equal; lia].
  - destruct (Z.eqb_spec (Zpos P / 2 ^ sh + 1) (2 ^ 53)) as [E|E].
    + exists (Z.to_pos (2 ^ 52)), (ea + -53 + sh + 1), sh, 1.
      split; [reflexivity|]. split; [reflexivity|].
      split; [lia|]. split; [lia|]. split; [now right|].
      rewrite E.
      replace (ea + -53 + sh + 1 + 106) with (1 + (ea + 53 + sh)) by lia.
      rewrite Z.pow_add_r, Z.mul_assoc by lia. reflexivity.
    + destruct (Zpos P / 2 ^ sh + 1) as [|q|q] eqn:Eq; try lia.
      exists q, (ea + -53 + sh), sh, 1. cbn [Z.to_pos].
      split; [reflexivity|]. split; [apply digits2_pos_unique; simpl; lia|].
      split; [lia|]. split; [lia|]. split; [now right|].
      rewrite Eq. f_equal. f_equal; lia.
Qed.

Lemma sixty_percent_arith (N M u v w r : Z) :
  1 <= N < 2 ^ 32 -> 0 <= M -> 2 ^ 21 <= u -> 0 < w -> 1 <= v -> w * v = 2 ^ 53 ->
  r = 0 \/ r = 1 ->
  (N * u * 5404319552844595) / w + r <= M * u * v <-> 3 * N <= 5 * M.
Proof.
  intros HN HM Hu Hw Hv Hwv Hr.
  set (A := N * u). set (B := M * u). set (P := A * 5404319552844595).
  set (q0 := P / w). set (t := B * v).
  replace (M * u * v) with t by reflexivity.
  assert (HA : 1 <= A) by (subst A; nia).
  assert (HAu : A < 2 ^ 32 * u) by (subst A; apply Z.mul_lt_mono_pos_r; lia).
  assert (Htw : t * w = B * 2 ^ 53) by (subst t; rewrite <- Hwv; ring).
  pose proof (Z.div_mod P w ltac:(lia)) as Hdm. fold q0 in Hdm.
  pose proof (Z.mod_pos_bound P w Hw) as Hmod.
  assert (HP5 : 5 * P = 3 * A * 2 ^ 53 - A) by (subst P; lia).
  rewrite (Z.mul_comm w q0) in Hdm.
  split.
  - intros Hle.
    destruct (Z_le_gt_dec (3 * N) (5 * M)) as [|Hgt]; [assumption|exfalso].
    assert (HAB : 5 * B + u <= 3 * A) by (subst A B; nia).
    assert (Hq : q0 * w <= t * w) by (apply Z.mul_le_mono_nonneg_r; lia).
    assert (w * 1 <= w * v) by (apply Z.mul_le_mono_nonneg_l; lia).
    lia.
  - intros Hle.
    assert (HAB : 3 * A <= 5 * B) by (subst A B; nia).
    assert (Hlt : q0 * w < t * w) by lia.
    apply Z.mul_lt_mono_pos_r in Hlt; lia.
Qed.

(** The comparison [m >= n * 0.6] of the source, on binary64 numbers, is the
    exact comparison [5 * m >= 3 * n] for all lengths an array can have. *)
Lemma geb_mul_0_6 (m n : nat) :
  Z.of_nat n < 2 ^ 32 -> Z.of_nat m < 2 ^ 32 ->
  Number.geb (Number.ofNat m) (Number.mul (Number.ofNat n) Number.c0_6)
  = Spec.atLeast60Percent m n.
Proof.
  intros Hn Hm. unfold Spec.atLeast60Percent, Number.geb.
  destruct n as [|n'].
  - change (Number.mul (Number.ofNat 0) Number.c0_6) with (S754_zero false).
    destruct m as [|m']; [reflexivity|].
    destruct (ofNat_normal (S m') ltac:(lia)) as (b & eb & -> & _). reflexivity.
  - destruct (ofNat_normal (S n') ltac:(lia)) as (a & ea & -> & Ha & Hea & Hav).
    destruct (mul_0_6_normal a ea Ha Hea) as (q & e & sh & r & -> & Hq & He & Hsh & Hr & Hval).
    destruct m as [|m'].
    + simpl SFleb. symmetry. apply Nat.leb_gt. lia.
    + destruct (ofNat_normal (S m') ltac:(lia)) as (b & eb & -> & Hb & Heb & Hbv).
      rewrite (SFleb_normal q b e eb 106) by (assumption || lia).
      rewrite Hval, Hbv, Hav.
      set (N := Z.of_nat (S n')) in *. set (M := Z.of_nat (S m')) in *.
      assert (Hz : 0 < 2 ^ (ea + 53 + sh)) by (apply Z.pow_pos_nonneg; lia).
      assert (Hu : 2 ^ 21 <= 2 ^ (- ea)) by (apply Z.pow_le_mono_r; lia).
      assert (Hw : 0 < 2 ^ sh) by (apply Z.pow_pos_nonneg; lia).
      assert (Hwv : 2 ^ sh * 2 ^ (53 - sh) = 2 ^ 53)
        by (rewrite <- Z.pow_add_r by lia; f_equal; lia).
      assert (Hrhs : M * 2 ^ (- eb) * 2 ^ (eb + 106)
                     = M * 2 ^ (- ea) * 2 ^ (53 - sh) * 2 ^ (ea + 53 + sh)).
      { rewrite <- !Z.mul_assoc, <- !Z.pow_add_r by lia. do 2 f_equal. lia. }
      rewrite Hrhs.
      assert (Hv : 1 <= 2 ^ (53 - sh))
        by (change 1 with (2 ^ 0) at 1; apply Z.pow_le_mono_r; lia).
      pose proof (sixty_percent_arith N M (2 ^ (- ea)) (2 ^ (53 - sh)) (2 ^ sh) r
                    ltac:(lia) ltac:(lia) Hu Hw Hv Hwv Hr) as Hiff.
      destruct (Nat.leb_spec (3 * S n') (5 * S m')) as [Hle|Hgt].
      * apply Z.leb_le. apply Z.mul_le_mono_nonneg_r; [lia|]. apply Hiff. lia.
      * apply Z.leb_gt. apply Z.mul_lt_mono_pos_r; [lia|].
        apply Z.lt_nge. intros Hc. apply Hiff in Hc. lia.
Qed.

End Binary64.

(** ** The dominant category *)

Lemma matchCount_le (pattern : RegExp.t) (files : list string) :
  matchCount pattern files <= length files.
Proof. apply filter_length_le. Qed.

Lemma dominant_exact (pattern : RegExp.t) (files : list string) :
  (Z.of_nat (length files) < 2 ^ 32)%Z ->
  dominant pattern files
  = Spec.atLeast60Percent (matchCount pattern files) (length files).
Proof.
  intros H. unfold dominant. apply geb_mul_0_6; [assumption|].
  pose proof (matchCount_le pattern files). lia.
Qed.

Lemma firstDominant_find (entries : list (string * RegExp.t)) (files : list string) :
  (Z.of_nat (length files) < 2 ^ 32)%Z ->
  firstDominant entries files
  = option_map fst
      (find (fun entry => (3 * length files <=? 5 * matchCount (snd entry) files)%nat)
            entries).
Proof.
  intros H. induction entries as [|[category pattern] rest IH]; [reflexivity|].
  cbn [firstDominant find snd]. rewrite dominant_exact by assumption.
  unfold Spec.atLeast60Percent.
  destruct (3 * length files <=? 5 * matchCount pattern files)%nat; [reflexivity|exact IH].
Qed.

(** C2. A category is dominant exactly when its matching files are at
    least 60% of the pool, that is when [3 * size <= 5 * matching]: 3 of 5
    is dominant, 5 of 9 is not; the first dominant category in the order of
    the table is returned, else none.  The pool has fewer than 2^32 files,
    as every array has. *)
Theorem categorizeFiles_threshold (files : list string) :
  (Z.of_nat (length files) < 2 ^ 32)%Z ->
  (forall pattern,
      dominant pattern files = true
      <-> 3 * length files <= 5 * matchCount pattern files)
  /\ (forall pattern,
        length files = 5 -> matchCount pattern files = 3 -> dominant pattern files = true)
  /\ (forall pattern,
        length files = 9 -> matchCount pattern files = 5 -> dominant pattern files = false)
  /\ categorizeFiles files
     = option_map fst
         (find (fun entry => (3 * length files <=? 5 * matchCount (snd entry) files)%nat)
               categories).
Proof.
  intros H.
  assert (Hd : forall pattern,
             dominant pattern files
             = (3 * length files <=? 5 * matchCount pattern files)%nat)
    by (intros pattern; now apply dominant_exact).
  split; [|split; [|split]].
  - intros pattern. rewrite Hd. apply Nat.leb_le.
  - intros pattern Hl Hm. now rewrite Hd, Hl, Hm.
  - intros pattern Hl Hm. now rewrite Hd, Hl, Hm.
  - now apply firstDominant_find.
Qed.

Lemma categorizeFiles_threshold_witness :
  let files := ["src/api/users.ts"; "src/api/orders.ts"; "src/routes.ts";
                "src/index.ts"; "package.json"] in
  (Z.of_nat (length files) < 2 ^ 32)%Z
  /\ dominant (mk (Alt (Chars "api") (Alt (Seq (Chars "route") (Opt (Chars "s")))
                     (Seq (Chars "controller") (Opt (Chars "s"))))) true) files = true
  /\ categorizeFiles files = Some "API routes".
Proof.
  assert (H : (Z.of_nat (length ["src/api/users.ts"; "src/api/orders.ts"; "src/routes.ts";
                                 "src/index.ts"; "package.json"]) < 2 ^ 32)%Z)
    by reflexivity.
  split; [exact H|]. split.
  - apply (proj1 (proj2 (categorizeFiles_threshold _ H))); reflexivity.
  - rewrite (proj2 (proj2 (proj2 (categorizeFiles_threshold _ H)))). reflexivity.
Defined.

(** The literal [0.6] is a valid binary64 number, and no 53-bit significand
    at its exponent is nearer to 3/5. *)
Example c0_6_nearest :
  valid_binary Number.prec Number.emax Number.c0_6 = true
  /\ forall m : Z,
      (Z.abs (5 * 5404319552844595 - 3 * 2 ^ 53) <= Z.abs (5 * m - 3 * 2 ^ 53))%Z.
Proof.
  split; [reflexivity|]. intros m.
  change (Z.abs (5 * 5404319552844595 - 3 * 2 ^ 53))%Z with 1%Z.
  change (3 * 2 ^ 53)%Z with 27021597764222976%Z. lia.
Qed.

(** Binary64 products at the threshold: [5 * 0.6] is exactly 3, and
    [9 * 0.6] lies above 5. *)
Example threshold_products :
  Number.mul (Number.ofNat 5) Number.c0_6 = Number.ofNat 3
  /\ Number.geb (Number.ofNat 5) (Number.mul (Number.ofNat 9) Number.c0_6) = false
  /\ Number.geb (Number.ofNat 6) (Number.mul (Number.ofNat 9) Number.c0_6) = true.
Proof. repeat split. Qed.

(** ** The subject composer *)

Lemma subject_many_files (changes : GitChanges) (type : string) (total : nat) :
  length (added changes) <> total ->
  length (deleted changes) <> total ->
  3 < total ->
  generateSubject changes type total
  = match JS.whenTruthy
            (categorizeFiles (modified changes ++ added changes ++ deleted changes)) with
    | Some category => "update " ++ category
    | None => Spec.fallbackPhrase type total
    end.
Proof.
  intros Ha Hd Ht. unfold generateSubject.
  apply Nat.eqb_neq in Ha, Hd. rewrite Ha, Hd.
  replace (total =? 1)%nat with false by (symmetry; apply Nat.eqb_neq; lia).
  rewrite andb_false_r.
  replace (total <=? 3)%nat with false by (symmetry; apply Nat.leb_gt; lia).
  reflexivity.
Qed.

Lemma subject_few_files (changes : GitChanges) (type : string) (total : nat) :
  length (added changes) <> total ->
  length (deleted changes) <> total ->
  (length (modified changes) =? 1)%nat && (total =? 1)%nat = false ->
  total <= 3 ->
  generateSubject changes type total
  = "update "
    ++ JS.join ", "
         (map getFileName
              (firstn 3 (modified changes ++ added changes ++ deleted changes))).
Proof.
  intros Ha Hd Hm Ht. unfold generateSubject.
  apply Nat.eqb_neq in Ha, Hd. rewrite Ha, Hd, Hm.
  replace (total <=? 3)%nat with true by (symmetry; apply Nat.leb_le; lia).
  reflexivity.
Qed.

Lemma categorizeFiles_truthy (files : list string) :
  JS.whenTruthy (categorizeFiles files) = categorizeFiles files.
Proof.
  unfold categorizeFiles, categories. cbn [firstDominant].
  repeat match goal with
         | |- context [dominant ?re files] => destruct (dominant re files)
         end; reflexivity.
Qed.

Lemma under_src_components (p : string) :
  JS.startsWith "src/components/" p = true ->
  firstSegment p = "src"
  /\ test (mk (Seq (Chars "component") (Opt (Chars "s"))) true) p = true.
Proof.
  intros H. destruct (startsWith_append _ _ H) as [rest ->]. split.
  - unfold firstSegment. simpl. now destruct (JS.split "/" rest).
  - reflexivity.
Qed.

(** C4. Five modified paths, all under [src/components/]: the scope is
    [src] and the subject is [update components], whatever the type.  The
    comma-joined list of base names is the subject only up to three files
    in total; above three the dominant category, or else the phrase of the
    type, decides. *)
Theorem five_components_scenario :
  (forall (paths : list string) (type : string),
      length paths = 5 ->
      Forall (fun p => JS.startsWith "src/components/" p = true) paths ->
      let changes := mkChanges paths [] [] [] [] in
      determineScope changes = Some "src"
      /\ generateSubject changes type (totalFiles changes) = "update components")
  /\ (forall changes type total,
        length (added changes) <> total ->
        length (deleted changes) <> total ->
        (length (modified changes) =? 1)%nat && (total =? 1)%nat = false ->
        let pool := (modified changes ++ added changes ++ deleted changes)%list in
        (total <= 3 ->
         generateSubject changes type total
         = "update " ++ JS.join ", " (map getFileName (firstn 3 pool)))
        /\ (3 < total ->
            generateSubject changes type total
            = match categorizeFiles pool with
              | Some category => "update " ++ category
              | None => Spec.fallbackPhrase type total
              end)).
Proof.
  split.
  - intros paths type Hlen Hall.
    destruct paths as [|p1 [|p2 [|p3 [|p4 [|p5 [|p6 paths]]]]]]; try discriminate.
    repeat match goal with
           | H : Forall _ (_ :: _) |- _ => inversion H; clear H; subst
           end.
    repeat match goal with
           | H : JS.startsWith _ _ = true |- _ =>
               apply under_src_components in H; destruct H
           end.
    split.
    + unfold determineScope.
      cbn [modified added deleted renamed app length Nat.eqb map].
      repeat match goal with
             | H : firstSegment ?p = _ |- context [firstSegment ?p] => rewrite H
             end.
      reflexivity.
    + rewrite subject_many_files, categorizeFiles_truthy;
        [|unfold totalFiles; simpl; lia ..].
      unfold categorizeFiles, categories. cbn [firstDominant].
      unfold dominant at 1. unfold matchCount.
      cbn [modified added deleted app filter].
      repeat match goal with
             | H : test _ ?p = true |- context [test _ ?p] => rewrite H
             end.
      reflexivity.
  - intros changes type total Ha Hd Hm pool. split; intros Ht.
    + now apply subject_few_files.
    + subst pool. rewrite <- categorizeFiles_truthy. now apply subject_many_files.
Qed.

Lemma five_components_scenario_witness :
  let paths := ["src/components/Header.tsx"; "src/components/Footer.tsx";
                "src/components/Sidebar.tsx"; "src/components/Button.tsx";
                "src/components/Input.tsx"] in
  let changes := mkChanges paths [] [] [] [] in
  (determineScope changes = Some "src"
   /\ generateSubject changes "refactor" (totalFiles changes) = "update components")
  /\ generateSubject (mkChanges ["src/a.ts"; "lib/b.ts"] ["README.md"] [] [] []) "feat" 3
     = "update a, b, README"
  /\ generateSubject (mkChanges ["src/a.ts"; "lib/b.ts"] ["x.ts"; "y.ts"] [] [] []) "feat" 4
     = "implement new feature".
Proof.
  split; [|split].
  - apply (proj1 five_components_scenario); [reflexivity|].
    repeat constructor.
  - apply (proj2 five_components_scenario); simpl; solve [discriminate | reflexivity | lia].
  - apply (proj2 five_components_scenario
             (mkChanges ["src/a.ts"; "lib/b.ts"] ["x.ts"; "y.ts"] [] [] []) "feat" 4);
      simpl; solve [discriminate | reflexivity | lia].
Defined.

(** C10. On the empty pool the first category, [components], is dominant;
    so a change set of more than three files, all of them renamed or
    untracked, gets the subject [update components]. *)
Theorem empty_pool_is_components :
  categorizeFiles [] = Some "components"
  /\ (forall changes type,
        modified changes = [] -> added changes = [] -> deleted changes = [] ->
        3 < totalFiles changes ->
        generateSubject changes type (totalFiles changes) = "update components").
Proof.
  split; [reflexivity|].
  intros changes type Hm Ha Hd Ht.
  rewrite subject_many_files; rewrite ?Hm, ?Ha, ?Hd; simpl; try lia.
  reflexivity.
Qed.

Lemma empty_pool_is_components_witness :
  let changes := mkChanges [] [] [] ["a.ts -> b.ts"; "c.ts -> d.ts"] ["e.txt"; "f.txt"] in
  3 < totalFiles changes
  /\ generateSubject changes "chore" (totalFiles changes) = "update components".
Proof.
  split; [unfold totalFiles; simpl; lia|].
  apply (proj2 empty_pool_is_components); try reflexivity.
  unfold totalFiles; simpl; lia.
Defined.

(** ** The body composer *)

Lemma generateSummary_counts (changes : GitChanges) :
  generateSummary changes = Spec.summary changes.
Proof.
  unfold generateSummary, Spec.summary, Spec.summaryCounts, summaryPart.
  destruct (added changes), (modified changes), (deleted changes), (renamed changes);
    reflexivity.
Qed.

(** C6. Above the threshold the body is the one-line summary of the
    non-zero counts, in the order added, modified, deleted, renamed; with
    12 added, 10 modified and 2 deleted files and the threshold 20 it is
    [Changes: 12 added, 10 modified, 2 deleted]. *)
Theorem generateBody_over_threshold :
  (forall (max : Z) (changes : GitChanges),
      (max < Z.of_nat (totalFiles changes))%Z ->
      generateBody max changes (totalFiles changes) = Spec.summary changes)
  /\ (forall changes : GitChanges,
        length (added changes) = 12 -> length (modified changes) = 10 ->
        length (deleted changes) = 2 -> renamed changes = [] -> untracked changes = [] ->
        generateBody 20 changes (totalFiles changes)
        = "Changes: 12 added, 10 modified, 2 deleted").
Proof.
  assert (Hgen : forall max changes,
             (max < Z.of_nat (totalFiles changes))%Z ->
             generateBody max changes (totalFiles changes) = Spec.summary changes).
  { intros max changes H. unfold generateBody.
    apply Z.ltb_lt in H. rewrite H. apply generateSummary_counts. }
  split; [exact Hgen|].
  intros changes Ha Hm Hd Hr Hu.
  rewrite Hgen by (unfold totalFiles; rewrite Ha, Hm, Hd, Hr, Hu; simpl; lia).
  unfold Spec.summary, Spec.summaryCounts. rewrite Ha, Hm, Hd, Hr. reflexivity.
Qed.

Lemma generateBody_over_threshold_witness :
  let changes :=
    mkChanges (repeat "src/m.ts" 10) (repeat "src/a.ts" 12) (repeat "src/d.ts" 2) [] [] in
  (20 < Z.of_nat (totalFiles changes))%Z
  /\ generateBody 20 changes (totalFiles changes) = Spec.summary changes
  /\ generateBody 20 changes (totalFiles changes)
     = "Changes: 12 added, 10 modified, 2 deleted".
Proof.
  split; [reflexivity|]. split.
  - apply (proj1 generateBody_over_threshold). reflexivity.
  - apply (proj2 generateBody_over_threshold); reflexivity.
Defined.




(** ** The formatter *)

Lemma block_appended (message : string) (block : option string) :
  match JS.whenTruthy block with
  | Some b => if JS.truthy (JS.trim b) then message ++ JS.nl ++ JS.nl ++ b else message
  | None => message
  end = message ++ Spec.blockPart block.
Proof.
  destruct block as [[|c b]|]; simpl; rewrite ?append_empty_r; try reflexivity.
  change (JS.trimEnd (if JS.isWhiteSpace c then JS.trimStart b else String c b))
    with (JS.trim (String c b)).
  rewrite trim_truthy. simpl.
  destruct (JS.isWhiteSpace c && Spec.blank b); simpl; now rewrite ?append_empty_r.
Qed.

Lemma formatCommitMessage_parts (structure : CommitStructure) :
  formatCommitMessage structure
  = type structure ++ Spec.scopePart (scope structure) ++ ": " ++ subject structure
    ++ Spec.blockPart (body structure) ++ Spec.blockPart (footer structure).
Proof.
  unfold formatCommitMessage. rewrite !block_appended.
  destruct (scope structure) as [[|c s]|];
    cbn [JS.whenTruthy JS.truthy Spec.scopePart];
    rewrite !append_assoc; reflexivity.
Qed.

(** C5, as amended.  The message is [type], the parenthesized scope when
    one is set and not empty, [: ], the subject, then the body after one
    blank line and the footer after one blank line, each only when it has a
    character that is not white space; with no body and no footer it is
    exactly the header. *)
Theorem formatCommitMessage_layout :
  (forall structure,
      formatCommitMessage structure
      = type structure ++ Spec.scopePart (scope structure) ++ ": " ++ subject structure
        ++ Spec.blockPart (body structure) ++ Spec.blockPart (footer structure))
  /\ (forall ty sc subj b f,
        In b [None; Some ""] -> In f [None; Some ""] ->
        formatCommitMessage (mkCommit ty sc subj b f)
        = ty ++ Spec.scopePart sc ++ ": " ++ subj)
  /\ (forall b, Spec.blank b = false -> Spec.blockPart (Some b) = JS.nl ++ JS.nl ++ b)
  /\ (forall b, Spec.blank b = true -> Spec.blockPart (Some b) = "").
Proof.
  split; [exact formatCommitMessage_parts|]. split; [|split].
  - intros ty sc subj b f Hb Hf. rewrite formatCommitMessage_parts. simpl.
    assert (Eb : Spec.blockPart b = "") by (simpl in Hb; intuition (subst; reflexivity)).
    assert (Ef : Spec.blockPart f = "") by (simpl in Hf; intuition (subst; reflexivity)).
    now rewrite Eb, Ef, append_empty_r.
  - intros b H. simpl. now rewrite H.
  - intros b H. simpl. now rewrite H.
Qed.

Lemma formatCommitMessage_layout_witness :
  In (Some "") [None; Some ""] /\ In None [None; Some ""]
  /\ formatCommitMessage (mkCommit "feat" (Some "auth") "add Login" (Some "") None)
     = "feat(auth): add Login"
  /\ Spec.blank "Closes #12" = false
  /\ Spec.blockPart (Some "Closes #12") = JS.nl ++ JS.nl ++ "Closes #12".
Proof.
  assert (Hb : In (Some "") [None; Some ""]) by (simpl; tauto).
  assert (Hf : In (@None string) [None; Some ""]) by (simpl; tauto).
  split; [exact Hb|]. split; [exact Hf|]. split.
  - exact (proj1 (proj2 formatCommitMessage_layout) "feat" (Some "auth") "add Login" _ _ Hb Hf).
  - split; [reflexivity|].
    apply (proj1 (proj2 (proj2 formatCommitMessage_layout))). reflexivity.
Defined.

(** C5, as stated, fails: a body of one space is not empty, yet it is not
    appended. *)
Lemma formatCommitMessage_blank_body_dropped :
  let structure := mkCommit "fix" (Some "api") "handle errors" (Some " ") None in
  body structure = Some " " /\ " " <> ""
  /\ formatCommitMessage structure = "fix(api): handle errors"
  /\ formatCommitMessage structure
     <> "fix(api): handle errors" ++ JS.nl ++ JS.nl ++ " ".
Proof. repeat split; try reflexivity; discriminate. Qed.

(** ** The command *)

(** C7, as amended.  A status output that is empty or all white space ends
    the command with the warning [No changes to commit]: no line is parsed
    and no message is produced. *)
Theorem activate_empty_status (host : Host) (status : string) :
  workspaceFolder host = true ->
  Spec.blank status = true ->
  activate host (inl status) = WarningMessage "No changes to commit"
  /\ statusLines status = [].
Proof.
  intros Hw Hb. apply trim_empty_iff in Hb.
  unfold activate, statusLines. rewrite Hw, Hb. split; reflexivity.
Qed.

Lemma activate_empty_status_witness :
  let host := mkHost true 20 false (fun items => hd_error items) None in
  let status := String JS.LF (String " " (String JS.LF "")) in
  workspaceFolder host = true /\ Spec.blank status = true
  /\ activate host (inl status) = WarningMessage "No changes to commit"
  /\ statusLines status = [].
Proof.
  split; [reflexivity|]. split; [reflexivity|].
  apply activate_empty_status; reflexivity.
Defined.

(** The command on two status outputs: one added file under [src/auth/],
    and the single modified [README.md]. *)
Example activate_scenarios :
  let host := mkHost true 20 false (fun items => hd_error items) None in
  activate host (inl "A  src/auth/Login.tsx")
  = CommitMessage ("feat(src): add Login" ++ JS.nl ++ JS.nl
                   ++ "Added:" ++ JS.nl ++ "  - src/auth/Login.tsx")
  /\ activate host (inl "M  README.md")
     = CommitMessage ("docs(README.md): update README" ++ JS.nl ++ JS.nl
                      ++ "Modified:" ++ JS.nl ++ "  - README.md")
  /\ parseGitStatus "R  old.ts -> new.ts" = mkChanges [] [] [] ["old.ts -> new.ts"] [].
Proof. repeat split. Qed.

(** C7, as stated, fails: the one line [UU conflict.txt] parses into no
    category, and the command goes on to produce a message. *)
Lemma activate_unparsed_lines_counterexample :
  let host := mkHost true 20 false (fun items => hd_error items) None in
  parseGitStatus "UU conflict.txt" = noChanges
  /\ activate host (inl "UU conflict.txt") = CommitMessage "style: add components"
  /\ activate host (inl "UU conflict.txt") <> WarningMessage "No changes to commit".
Proof. repeat split; try reflexivity; discriminate. Qed.

(** * Further properties *)

(** ** The status parser, line by line *)

Lemma fold_parseLine (lines : list string) (acc : GitChanges) :
  fold_left parseLine lines acc
  = mkChanges (modified acc ++ Shape.pathsOf Modified lines)
              (added acc ++ Shape.pathsOf Added lines)
              (deleted acc ++ Shape.pathsOf Deleted lines)
              (renamed acc ++ Shape.pathsOf Renamed lines)
              (untracked acc ++ Shape.pathsOf Untracked lines).
Proof.
  revert acc. induction lines as [|line lines IH]; intros acc.
  - destruct acc. simpl. now rewrite !app_nil_r.
  - cbn [fold_left]. rewrite IH, parseLine_place.
    unfold Spec.place, Shape.pathsOf, Shape.linesOf. cbn [filter].
    destruct (Spec.classify line) as [[]|]; simpl;
      rewrite <- ?app_assoc; reflexivity.
Qed.

(** X1. Each category of the parsed change set is the list of the paths of
    the lines classified to it, in the order of the lines, duplicates
    kept. *)
Theorem parseGitStatus_by_category (status : string) :
  parseGitStatus status
  = mkChanges (Shape.pathsOf Modified (statusLines status))
              (Shape.pathsOf Added (statusLines status))
              (Shape.pathsOf Deleted (statusLines status))
              (Shape.pathsOf Renamed (statusLines status))
              (Shape.pathsOf Untracked (statusLines status)).
Proof. unfold parseGitStatus. now rewrite fold_parseLine. Qed.

Lemma classified_split (lines : list string) :
  length (Shape.classified lines)
  = length (Shape.linesOf Modified lines) + length (Shape.linesOf Added lines)
    + length (Shape.linesOf Deleted lines) + length (Shape.linesOf Renamed lines)
    + length (Shape.linesOf Untracked lines).
Proof.
  unfold Shape.classified, Shape.linesOf.
  induction lines as [|line lines IH]; [reflexivity|].
  cbn [filter]. destruct (Spec.classify line) as [[]|]; simpl; lia.
Qed.

(** X2. The number of files of the parsed change set is the number of
    status lines that match a rule: a line adds at most one file, and a
    line matching no rule adds none. *)
Theorem parseGitStatus_counts_classified_lines (status : string) :
  totalFiles (parseGitStatus status) = length (Shape.classified (statusLines status))
  /\ totalFiles (parseGitStatus status) <= length (statusLines status).
Proof.
  assert (H : totalFiles (parseGitStatus status)
              = length (Shape.classified (statusLines status))).
  { unfold parseGitStatus. rewrite fold_parseLine, classified_split.
    unfold totalFiles, Shape.pathsOf. simpl. now rewrite !length_map. }
  split; [exact H|]. rewrite H. apply filter_length_le.
Qed.

(** ** Trimming and splitting *)

Lemma trimEnd_cons_kept (c : ascii) (s : string) :
  JS.isWhiteSpace c = false -> JS.trimEnd (String c s) = String c (JS.trimEnd s).
Proof. intros Hc. simpl. rewrite Hc. now destruct (JS.trimEnd s). Qed.

Lemma trimEnd_idempotent (s : string) : JS.trimEnd (JS.trimEnd s) = JS.trimEnd s.
Proof.
  induction s as [|c s IH]; [reflexivity|].
  cbn [JS.trimEnd]. destruct (JS.trimEnd s) as [|d r] eqn:E.
  - destruct (JS.isWhiteSpace c) eqn:Hc; [reflexivity|]. simpl. now rewrite Hc.
  - change (JS.trimEnd (String c (String d r)))
      with (match JS.trimEnd (String d r) with
            | EmptyString => if JS.isWhiteSpace c then EmptyString else String c EmptyString
            | r' => String c r'
            end).
    now rewrite IH.
Qed.

Lemma trimStart_shape (s : string) :
  JS.trimStart s = "" \/ exists c t, JS.trimStart s = String c t /\ JS.isWhiteSpace c = false.
Proof.
  induction s as [|c s IH]; [now left|]. simpl.
  destruct (JS.isWhiteSpace c) eqn:Hc; [exact IH|]. right. now exists c, s.
Qed.

Lemma trim_idempotent (s : string) : JS.trim (JS.trim s) = JS.trim s.
Proof.
  unfold JS.trim. destruct (trimStart_shape s) as [->|(c & t & -> & Hc)]; [reflexivity|].
  rewrite trimEnd_cons_kept by assumption.
  cbn [JS.trimStart]. rewrite Hc.
  rewrite <- (trimEnd_cons_kept c t Hc). apply trimEnd_idempotent.
Qed.

Lemma trimEnd_noWhiteSpace (s : string) : Shape.noWhiteSpace s = true -> JS.trimEnd s = s.
Proof.
  induction s as [|c s IH]; [reflexivity|].
  unfold Shape.noWhiteSpace. cbn [Shape.allChars]. intros H.
  apply andb_true_iff in H as [Hc Hs]. apply negb_true_iff in Hc.
  rewrite trimEnd_cons_kept by assumption. now rewrite IH.
Qed.

Lemma trim_noWhiteSpace (s : string) : Shape.noWhiteSpace s = true -> JS.trim s = s.
Proof.
  intros H. unfold JS.trim.
  replace (JS.trimStart s) with s; [now apply trimEnd_noWhiteSpace|].
  destruct s as [|c s]; [reflexivity|].
  unfold Shape.noWhiteSpace in H. cbn [Shape.allChars] in H.
  apply andb_true_iff in H as [Hc _]. apply negb_true_iff in Hc.
  simpl. now rewrite Hc.
Qed.

Lemma split_not_nil (sep : ascii) (s : string) : JS.split sep s <> [].
Proof.
  induction s as [|c s IH]; [discriminate|]. simpl.
  destruct (Ascii.eqb c sep); [discriminate|].
  destruct (JS.split sep s); [contradiction|discriminate].
Qed.

Lemma split_segments (sep : ascii) (s seg : string) :
  In seg (JS.split sep s) -> Shape.allChars (fun c => negb (Ascii.eqb c sep)) seg = true.
Proof.
  revert seg. induction s as [|c s IH]; intros seg H.
  - destruct H as [<-|[]]. reflexivity.
  - simpl in H. destruct (Ascii.eqb c sep) eqn:Ec.
    + destruct H as [<-|H]; [reflexivity|now apply IH].
    + destruct (JS.split sep s) as [|h t] eqn:Es; [now elim (split_not_nil sep s)|].
      destruct H as [<-|H].
      * cbn [Shape.allChars]. rewrite Ec. simpl. apply IH. now left.
      * apply IH. now right.
Qed.

Lemma split_without_separator (sep : ascii) (s : string) :
  Shape.allChars (fun c => negb (Ascii.eqb c sep)) s = true -> JS.split sep s = [s].
Proof.
  induction s as [|c s IH]; [reflexivity|]. cbn [Shape.allChars]. intros H.
  apply andb_true_iff in H as [Hc Hs]. apply negb_true_iff in Hc.
  simpl. now rewrite Hc, IH.
Qed.

Lemma split_append (sep : ascii) (a b : string) :
  JS.split sep (a ++ String sep b) = (JS.split sep a ++ JS.split sep b)%list.
Proof.
  induction a as [|c a IH].
  - simpl. now rewrite Ascii.eqb_refl.
  - cbn [append JS.split]. rewrite IH.
    destruct (Ascii.eqb c sep); [reflexivity|].
    destruct (JS.split sep a) as [|h t] eqn:Es; [now elim (split_not_nil sep a)|].
    reflexivity.
Qed.

(** X3. No status line is empty and none contains a line feed. *)
Theorem statusLines_well_formed (status line : string) :
  In line (statusLines status) ->
  line <> "" /\ Shape.allChars (fun c => negb (Ascii.eqb c JS.LF)) line = true.
Proof.
  unfold statusLines. intros H. apply filter_In in H as [Hin Ht]. split.
  - now destruct line.
  - now apply split_segments with (s := JS.trim status).
Qed.

Lemma statusLines_well_formed_witness :
  let status := String "M" (String " " (String "a" (String JS.LF (String JS.LF "?? b")))) in
  In "?? b" (statusLines status)
  /\ "?? b" <> ""
  /\ Shape.allChars (fun c => negb (Ascii.eqb c JS.LF)) "?? b" = true.
Proof.
  assert (H : In "?? b"
                (statusLines
                   (String "M" (String " " (String "a"
                      (String JS.LF (String JS.LF "?? b")))))))
    by (vm_compute; tauto).
  exact (conj H (statusLines_well_formed _ _ H)).
Defined.

Lemma in_pathsOf_trimmed (cat : Category) (lines : list string) (p : string) :
  In p (Shape.pathsOf cat lines) -> Shape.trimmed p.
Proof.
  unfold Shape.pathsOf. intros H. apply in_map_iff in H as (line & <- & _).
  unfold Shape.trimmed, Spec.path. apply trim_idempotent.
Qed.

(** X4. Every path of the parsed change set is trimmed: it has no white
    space at either end. *)
Theorem parseGitStatus_paths_trimmed (status p : string) :
  In p (modified (parseGitStatus status) ++ added (parseGitStatus status)
        ++ deleted (parseGitStatus status) ++ renamed (parseGitStatus status)
        ++ untracked (parseGitStatus status)) ->
  JS.trim p = p.
Proof.
  unfold parseGitStatus. rewrite fold_parseLine. unfold noChanges.
  cbn [modified added deleted renamed untracked app]. rewrite !in_app_iff.
  intros [H|[H|[H|[H|H]]]]; exact (in_pathsOf_trimmed _ _ _ H).
Qed.

Lemma parseGitStatus_paths_trimmed_witness :
  let status := "R  old name.ts -> new name.ts  " in
  In "old name.ts -> new name.ts"
     (modified (parseGitStatus status) ++ added (parseGitStatus status)
      ++ deleted (parseGitStatus status) ++ renamed (parseGitStatus status)
      ++ untracked (parseGitStatus status))
  /\ JS.trim "old name.ts -> new name.ts" = "old name.ts -> new name.ts".
Proof.
  assert (H : In "old name.ts -> new name.ts"
                (modified (parseGitStatus "R  old name.ts -> new name.ts  ")
                 ++ added (parseGitStatus "R  old name.ts -> new name.ts  ")
                 ++ deleted (parseGitStatus "R  old name.ts -> new name.ts  ")
                 ++ renamed (parseGitStatus "R  old name.ts -> new name.ts  ")
                 ++ untracked (parseGitStatus "R  old name.ts -> new name.ts  ")))
    by (vm_compute; tauto).
  exact (conj H (parseGitStatus_paths_trimmed _ _ H)).
Defined.

(** X5. Trimming the whole status output takes the leading space of an
    unstaged first line with it: the status characters move one column to
    the left and the path loses its first character.  With the status code
    in the first column the path is kept whole. *)
Theorem first_line_unstaged_loses_a_character (c : ascii) (rest : string) :
  Shape.noWhiteSpace (String c rest) = true ->
  parseGitStatus (" M " ++ String c rest) = mkChanges [rest] [] [] [] []
  /\ parseGitStatus ("M  " ++ String c rest) = mkChanges [String c rest] [] [] [] [].
Proof.
  intros Hp.
  assert (Hrest : Shape.noWhiteSpace rest = true).
  { unfold Shape.noWhiteSpace in *. cbn [Shape.allChars] in Hp.
    now apply andb_true_iff in Hp as [_ ?]. }
  assert (Hlf : forall s, Shape.noWhiteSpace s = true ->
                          Shape.allChars (fun x => negb (Ascii.eqb x JS.LF)) s = true).
  { induction s as [|x s IH]; [reflexivity|].
    unfold Shape.noWhiteSpace. cbn [Shape.allChars]. intros H.
    apply andb_true_iff in H as [Hx Hs]. rewrite (IH Hs), andb_true_r.
    destruct (Ascii.eqb_spec x JS.LF) as [->|]; [discriminate Hx|reflexivity]. }
  assert (Hline1 : statusLines (" M " ++ String c rest) = ["M " ++ String c rest]).
  { unfold statusLines, JS.trim.
    change (JS.trimStart (" M " ++ String c rest)) with ("M " ++ String c rest).
    change ("M " ++ String c rest) with (String "M" (String " " (String c rest))).
    rewrite (trimEnd_cons_kept "M") by reflexivity.
    assert (E : JS.trimEnd (String " " (String c rest)) = String " " (String c rest)).
    { cbn [JS.trimEnd]. rewrite (trimEnd_noWhiteSpace (String c rest) Hp) at 1.
      reflexivity. }
    rewrite E. rewrite split_without_separator; [reflexivity|].
    pose proof (Hlf _ Hp) as Hc. cbn [Shape.allChars] in Hc |- *. now rewrite Hc. }
  assert (Hline2 : statusLines ("M  " ++ String c rest) = ["M  " ++ String c rest]).
  { unfold statusLines, JS.trim.
    change (JS.trimStart ("M  " ++ String c rest)) with ("M  " ++ String c rest).
    change ("M  " ++ String c rest)
      with (String "M" (String " " (String " " (String c rest)))).
    rewrite (trimEnd_cons_kept "M") by reflexivity.
    assert (E : JS.trimEnd (String " " (String " " (String c rest)))
                = String " " (String " " (String c rest))).
    { cbn [JS.trimEnd]. rewrite (trimEnd_noWhiteSpace (String c rest) Hp) at 1.
      reflexivity. }
    rewrite E. rewrite split_without_separator; [reflexivity|].
    pose proof (Hlf _ Hp) as Hc. cbn [Shape.allChars] in Hc |- *. now rewrite Hc. }
  unfold parseGitStatus. rewrite Hline1, Hline2. cbn [fold_left]. rewrite !parseLine_place.
  unfold Spec.place, Spec.path. split.
  - change (JS.drop 3 ("M " ++ String c rest)) with rest.
    now rewrite (trim_noWhiteSpace rest Hrest).
  - change (JS.drop 3 ("M  " ++ String c rest)) with (String c rest).
    now rewrite (trim_noWhiteSpace _ Hp).
Qed.

Lemma first_line_unstaged_loses_a_character_witness :
  Shape.noWhiteSpace "src/index.ts" = true
  /\ parseGitStatus " M src/index.ts" = mkChanges ["rc/index.ts"] [] [] [] []
  /\ parseGitStatus "M  src/index.ts" = mkChanges ["src/index.ts"] [] [] [] [].
Proof.
  split; [reflexivity|].
  apply (first_line_unstaged_loses_a_character "s" "rc/index.ts"). reflexivity.
Defined.

(** ** The type suggestion *)

Lemma autoDetected_values (changes : GitChanges) :
  In (autoDetected changes) [None; Some "test"; Some "chore"; Some "docs"; Some "style"].
Proof.
  unfold autoDetected.
  repeat match goal with
         | |- context [if ?b then _ else _] => destruct b
         end; simpl; tauto.
Qed.

(** X6. The quick pick always offers the eight types, each once: a
    suggestion only moves its type to the front, and without a suggestion
    the table is shown as it is. *)
Theorem typesToShow_reorders_types (changes : GitChanges) :
  Permutation (map label (typesToShow changes)) (map label types)
  /\ (forall t, autoDetected changes = Some t ->
                hd_error (map label (typesToShow changes)) = Some t)
  /\ (autoDetected changes = None -> typesToShow changes = types).
Proof.
  pose proof (autoDetected_values changes) as H. unfold typesToShow.
  simpl in H. destruct H as [H|[H|[H|[H|[H|[]]]]]]; rewrite <- H; cbn.
  - split; [apply Permutation_refl|]. split; [discriminate|reflexivity].
  - split; [|split; [now intros t [= <-]|discriminate]].
    apply (Permutation_cons_app ["feat"; "fix"; "docs"; "style"; "refactor"]
                                ["chore"; "perf"] "test").
    apply Permutation_refl.
  - split; [|split; [now intros t [= <-]|discriminate]].
    apply (Permutation_cons_app ["feat"; "fix"; "docs"; "style"; "refactor"; "test"]
                                ["perf"] "chore").
    apply Permutation_refl.
  - split; [|split; [now intros t [= <-]|discriminate]].
    apply (Permutation_cons_app ["feat"; "fix"]
                                ["style"; "refactor"; "test"; "chore"; "perf"] "docs").
    apply Permutation_refl.
  - split; [|split; [now intros t [= <-]|discriminate]].
    apply (Permutation_cons_app ["feat"; "fix"; "docs"]
                                ["refactor"; "test"; "chore"; "perf"] "style").
    apply Permutation_refl.
Qed.

Lemma typesToShow_reorders_types_witness :
  let changes := mkChanges ["src/app.test.ts"] ["README.md"] [] [] [] in
  autoDetected changes = Some "test"
  /\ hd_error (map label (typesToShow changes)) = Some "test".
Proof.
  assert (H : autoDetected (mkChanges ["src/app.test.ts"] ["README.md"] [] [] [])
              = Some "test") by reflexivity.
  exact (conj H (proj1 (proj2 (typesToShow_reorders_types _)) _ H)).
Defined.

(** ** The scope resolver, in general *)

Lemma firstSegment_of_directory (d rest : string) :
  Shape.noSlash d = true -> firstSegment (d ++ String "/" rest) = d.
Proof.
  intros Hd. unfold firstSegment.
  rewrite split_append, (split_without_separator "/" d Hd). reflexivity.
Qed.

Lemma uniq_singleton (l : list string) (x : string) :
  JS.uniq l = [x] -> exists t, l = x :: t.
Proof. destruct l as [|y t]; [discriminate|]. simpl. intros [= -> _]. now exists t. Qed.

(** X7. A scope, when there is one, is never empty and never ["."]: it is
    the first segment of one of the modified, added, deleted or renamed
    paths, or one of the four fixed tokens. *)
Theorem determineScope_shape (changes : GitChanges) (s : string) :
  determineScope changes = Some s ->
  s <> "" /\ s <> "."
  /\ (In s (map firstSegment (Shape.tracked changes))
      \/ In s ["components"; "api"; "utils"; "types"]).
Proof.
  unfold determineScope, Shape.tracked.
  set (allFiles := (modified changes ++ added changes ++ deleted changes
                    ++ renamed changes)%list).
  destruct (length allFiles =? 0)%nat; [discriminate|].
  set (dirs := filter (fun d => negb (String.eqb d "")) (map firstSegment allFiles)).
  destruct ((length (JS.uniq dirs) =? 1)%nat
            && negb (String.eqb (nth 0 (JS.uniq dirs) "") "."))%bool eqn:E.
  - intros [= <-]. apply andb_true_iff in E as [El Ed].
    apply Nat.eqb_eq in El. apply negb_true_iff, String.eqb_neq in Ed.
    destruct (JS.uniq dirs) as [|x [|y u]] eqn:Eu; try discriminate.
    cbn [nth] in *. destruct (uniq_singleton _ _ Eu) as [t Et].
    assert (Hin : In x dirs) by (rewrite Et; now left).
    apply filter_In in Hin as [Hin Hne].
    apply negb_true_iff, String.eqb_neq in Hne. tauto.
  - repeat match goal with
           | |- context [if ?b then _ else _] => destruct b
           end; intros [= <-]; (repeat split; try discriminate); right; simpl; tauto.
Qed.

Lemma determineScope_shape_witness :
  let changes := mkChanges ["lib/api/a.ts"] ["src/routes/b.ts"] [] [] [] in
  determineScope changes = Some "api"
  /\ "api" <> "" /\ "api" <> "."
  /\ (In "api" (map firstSegment (Shape.tracked changes))
      \/ In "api" ["components"; "api"; "utils"; "types"]).
Proof.
  assert (H : determineScope (mkChanges ["lib/api/a.ts"] ["src/routes/b.ts"] [] [] [])
              = Some "api") by reflexivity.
  exact (conj H (determineScope_shape _ _ H)).
Defined.

(** X8. When every modified, added, deleted and renamed path lies under
    one top-level directory [d], that directory is the scope, however deep
    the paths go and whatever the untracked paths are. *)
Theorem determineScope_top_level_directory (changes : GitChanges) (d : string) :
  Shape.tracked changes <> [] ->
  d <> "" -> d <> "." -> Shape.noSlash d = true ->
  (forall p, In p (Shape.tracked changes) -> exists rest, p = d ++ String "/" rest) ->
  determineScope changes = Some d.
Proof.
  unfold Shape.tracked, determineScope. intros Hne Hd Hdot Hslash Hall.
  set (allFiles := (modified changes ++ added changes ++ deleted changes
                    ++ renamed changes)%list) in *.
  assert (Hseg : forall l, (forall p, In p l -> exists rest, p = d ++ String "/" rest) ->
                           filter (fun x => negb (String.eqb x "")) (map firstSegment l)
                           = map (fun _ => d) l).
  { induction l as [|p l IH]; intros H; [reflexivity|].
    destruct (H p (or_introl eq_refl)) as [rest ->].
    cbn [map filter]. rewrite firstSegment_of_directory by assumption.
    apply String.eqb_neq in Hd. rewrite Hd. cbn [negb].
    f_equal. apply IH. intros q Hq. apply H. now right. }
  rewrite (Hseg allFiles Hall).
  destruct allFiles as [|f fs]; [contradiction|].
  change (length (f :: fs) =? 0)%nat with false. cbv iota.
  rewrite (uniq_constant d).
  - simpl. apply String.eqb_neq in Hdot. now rewrite Hdot.
  - discriminate.
  - intros x Hx. apply in_map_iff in Hx as (? & <- & _). reflexivity.
Qed.

Lemma determineScope_top_level_directory_witness :
  let changes :=
    mkChanges ["src/auth/Login.tsx"] ["src/api/v1/users.ts"] [] [] ["notes/todo.txt"] in
  Shape.tracked changes <> []
  /\ determineScope changes = Some "src".
Proof.
  split; [discriminate|].
  apply determineScope_top_level_directory; try discriminate; try reflexivity.
  intros p [<-|[<-|[]]]; [now exists "auth/Login.tsx"|now exists "api/v1/users.ts"].
Defined.

(** ** Base names *)

Lemma pop_last (l : list string) (x : string) : JS.pop (l ++ [x]) = Some x.
Proof.
  induction l as [|y l IH]; [reflexivity|].
  cbn [app JS.pop]. destruct (l ++ [x])%list eqn:E; [now destruct l|exact IH].
Qed.

Lemma pop_split_last (dir base : string) :
  Shape.noSlash base = true ->
  JS.pop (JS.split "/" (dir ++ String "/" base)) = Some base.
Proof.
  intros H. rewrite split_append, (split_without_separator "/" base H). apply pop_last.
Qed.

(** The extension pattern at the start of [s]: a dot, then an extension up
    to the end of the input. *)
Lemma exec_unfold (re : RegExp.t) (s : string) :
  exec re s
  = match run (ignoreCase re) (source re) s (fun rest => Some rest) with
    | Some rest => Some (EmptyString, rest)
    | None =>
        match s with
        | EmptyString => None
        | String c s' =>
            match exec re s' with
            | Some (before, rest) => Some (String c before, rest)
            | None => None
            end
        end
    end.
Proof. destruct s; reflexivity. Qed.

Lemma run_extension (s : string) :
  run (ignoreCase reExtension) (source reExtension) s (fun rest => Some rest)
  = match s with
    | String c rest =>
        if Ascii.eqb c "." && Shape.isExtension rest then Some "" else None
    | EmptyString => None
    end.
Proof.
  destruct s as [|c rest]; [reflexivity|].
  cbn [reExtension source ignoreCase run matchChars].
  unfold sameChar, canonicalize. cbn [andb].
  rewrite (Ascii.eqb_sym "." c). destruct (Ascii.eqb c "."); [|reflexivity].
  cbn [andb]. unfold Shape.isExtension, plusClass.
  destruct rest as [|d rest]; [reflexivity|]. cbn [JS.truthy andb Shape.allChars].
  assert (Hclass : forall x,
             negb (inClass false x "/.") = negb (Ascii.eqb x "/" || Ascii.eqb x ".")).
  { intros x. cbn [inClass]. unfold sameChar, canonicalize. cbn [andb].
    now rewrite orb_false_r, (Ascii.eqb_sym "/" x), (Ascii.eqb_sym "." x). }
  rewrite Hclass.
  destruct (negb (Ascii.eqb d "/" || Ascii.eqb d ".")); [|reflexivity]. cbn [andb].
  induction rest as [|e rest IH]; [reflexivity|].
  cbn [starClass Shape.allChars]. rewrite Hclass.
  destruct (negb (Ascii.eqb e "/" || Ascii.eqb e ".")); [|reflexivity].
  cbn [andb]. rewrite IH.
  now destruct (Shape.allChars _ rest).
Qed.

Lemma allChars_with_bad_char (p : ascii -> bool) (a b : string) (x : ascii) :
  p x = false -> Shape.allChars p (a ++ String x b) = false.
Proof.
  intros Hx. induction a as [|c a IH]; cbn [append Shape.allChars].
  - now rewrite Hx.
  - rewrite IH. apply andb_false_r.
Qed.

Lemma isExtension_after_dot (a b : string) : Shape.isExtension (a ++ String "." b) = false.
Proof.
  unfold Shape.isExtension. rewrite allChars_with_bad_char by reflexivity.
  apply andb_false_r.
Qed.

Lemma isExtension_before_slash (a : string) : Shape.isExtension (a ++ "/") = false.
Proof.
  unfold Shape.isExtension.
  rewrite (allChars_with_bad_char _ a "" "/") by reflexivity.
  apply andb_false_r.
Qed.

Lemma exec_extension_found (name ext : string) :
  Shape.isExtension ext = true ->
  exec reExtension (name ++ String "." ext) = Some (name, "").
Proof.
  intros Hext. induction name as [|c name IH]; rewrite exec_unfold, run_extension;
    cbn [append].
  - now rewrite Ascii.eqb_refl, Hext.
  - now rewrite isExtension_after_dot, andb_false_r, IH.
Qed.

Lemma exec_extension_no_dot (s : string) :
  Shape.noDot s = true -> exec reExtension s = None.
Proof.
  induction s as [|c s IH]; [reflexivity|].
  unfold Shape.noDot. cbn [Shape.allChars]. intros H.
  apply andb_true_iff in H as [Hc Hs]. apply negb_true_iff in Hc.
  rewrite exec_unfold, run_extension, Hc. cbn [andb]. now rewrite (IH Hs).
Qed.

Lemma exec_extension_before_slash (s : string) : exec reExtension (s ++ "/") = None.
Proof.
  induction s as [|c s IH]; [reflexivity|].
  rewrite exec_unfold, run_extension. cbn [append].
  now rewrite isExtension_before_slash, andb_false_r, IH.
Qed.

Lemma noSlash_append (a b : string) :
  Shape.noSlash a = true -> Shape.noSlash b = true -> Shape.noSlash (a ++ b) = true.
Proof.
  unfold Shape.noSlash. induction a as [|c a IH]; intros Ha Hb; [exact Hb|].
  cbn [append Shape.allChars] in *. apply andb_true_iff in Ha as [-> Ha]. now apply IH.
Qed.

Lemma isExtension_noSlash (ext : string) :
  Shape.isExtension ext = true -> Shape.noSlash ext = true.
Proof.
  unfold Shape.isExtension, Shape.noSlash. intros H.
  apply andb_true_iff in H as [_ H].
  induction ext as [|c ext IH]; [reflexivity|].
  cbn [Shape.allChars] in *. apply andb_true_iff in H as [Hc H].
  rewrite (IH H), andb_true_r. now destruct (Ascii.eqb c "/").
Qed.

(** X9. The base name is the last path segment without its final
    extension; only the last extension goes, and a name that is nothing but
    an extension, as of a dot file, gives the empty string. *)
Theorem getFileName_strips_last_extension (dir name ext : string) :
  Shape.noSlash name = true -> Shape.isExtension ext = true ->
  getFileName (dir ++ String "/" (name ++ String "." ext)) = name
  /\ getFileName (name ++ String "." ext) = name.
Proof.
  intros Hname Hext.
  assert (Hbase : Shape.noSlash (name ++ String "." ext) = true).
  { apply noSlash_append; [assumption|].
    unfold Shape.noSlash. cbn [Shape.allChars]. now apply isExtension_noSlash. }
  assert (Htruthy : JS.truthy (name ++ String "." ext) = true) by now destruct name.
  unfold getFileName, replace. split.
  - rewrite pop_split_last by assumption. cbn [JS.whenTruthy]. rewrite Htruthy.
    rewrite exec_extension_found by assumption. cbn [append]. apply append_empty_r.
  - rewrite (split_without_separator "/" _ Hbase). cbn [JS.pop JS.whenTruthy].
    rewrite Htruthy, exec_extension_found by assumption. cbn [append]. apply append_empty_r.
Qed.

Lemma getFileName_strips_last_extension_witness :
  Shape.noSlash "auth.service" = true /\ Shape.isExtension "ts" = true
  /\ getFileName "src/app/auth.service.ts" = "auth.service"
  /\ getFileName "auth.service.ts" = "auth.service".
Proof.
  split; [reflexivity|]. split; [reflexivity|].
  apply (getFileName_strips_last_extension "src/app" "auth.service" "ts"); reflexivity.
Defined.

(** X10. A last segment without a dot is returned as it is. *)
Theorem getFileName_without_extension (dir base : string) :
  base <> "" -> Shape.noSlash base = true -> Shape.noDot base = true ->
  getFileName (dir ++ String "/" base) = base /\ getFileName base = base.
Proof.
  intros Hne Hslash Hdot.
  assert (Htruthy : JS.truthy base = true) by now destruct base.
  unfold getFileName, replace. split.
  - rewrite pop_split_last by assumption. cbn [JS.whenTruthy]. rewrite Htruthy.
    now rewrite exec_extension_no_dot.
  - rewrite (split_without_separator "/" _ Hslash). cbn [JS.pop JS.whenTruthy].
    rewrite Htruthy. now rewrite exec_extension_no_dot.
Qed.

Lemma getFileName_without_extension_witness :
  "Makefile" <> "" /\ Shape.noSlash "Makefile" = true /\ Shape.noDot "Makefile" = true
  /\ getFileName "tools/build/Makefile" = "Makefile" /\ getFileName "Makefile" = "Makefile".
Proof.
  split; [discriminate|]. split; [reflexivity|]. split; [reflexivity|].
  apply (getFileName_without_extension "tools/build" "Makefile");
    [discriminate|reflexivity|reflexivity].
Defined.

(** X11. A path that ends in [/] has an empty last segment: the whole
    path is taken instead and comes back unchanged. *)
Theorem getFileName_trailing_slash (p : string) : getFileName (p ++ "/") = p ++ "/".
Proof.
  unfold getFileName, replace.
  change (p ++ "/") with (p ++ String "/" "") at 1.
  rewrite pop_split_last by reflexivity. cbn [JS.whenTruthy JS.truthy].
  now rewrite exec_extension_before_slash.
Qed.

(** ** The dominant category, in general *)

Lemma firstDominant_none (entries : list (string * RegExp.t)) (files : list string) :
  files <> [] -> (Z.of_nat (length files) < 2 ^ 32)%Z ->
  Forall (fun entry => matchCount (snd entry) files = 0) entries ->
  firstDominant entries files = None.
Proof.
  intros Hne Hlen Hall. induction Hall as [|[category pattern] rest H0 _ IH]; [reflexivity|].
  cbn [firstDominant]. cbn [snd] in H0.
  rewrite dominant_exact, H0 by assumption. unfold Spec.atLeast60Percent.
  replace (3 * length files <=? 5 * 0)%nat with false; [exact IH|].
  symmetry. apply Nat.leb_gt. destruct files; [contradiction|simpl; lia].
Qed.

(** X12. A pool of one file or more in which no file matches any of the
    ten patterns has no dominant category. *)
Theorem categorizeFiles_no_match (files : list string) :
  files <> [] -> (Z.of_nat (length files) < 2 ^ 32)%Z ->
  Forall (fun entry => matchCount (snd entry) files = 0) categories ->
  categorizeFiles files = None.
Proof. intros Hne Hlen Hall. now apply firstDominant_none. Qed.

Lemma categorizeFiles_no_match_witness :
  let files := ["src/index.ts"; "src/main.ts"; "LICENSE"; "Makefile"] in
  files <> [] /\ (Z.of_nat (length files) < 2 ^ 32)%Z
  /\ categorizeFiles files = None.
Proof.
  split; [discriminate|]. split; [reflexivity|].
  apply categorizeFiles_no_match; [discriminate|reflexivity|].
  repeat constructor.
Defined.

(** X13. [components] is the first entry of the table: whenever at least
    60% of the files contain [component], in any letter case, the category
    is [components], whatever else the files match. *)
Theorem categorizeFiles_components_first (files : list string) :
  (Z.of_nat (length files) < 2 ^ 32)%Z ->
  3 * length files <= 5 * matchCount reScopeComponents files ->
  categorizeFiles files = Some "components".
Proof.
  intros Hlen H. unfold categorizeFiles, categories. cbn [firstDominant].
  change (mk (Seq (Chars "component") (Opt (Chars "s"))) true) with reScopeComponents.
  rewrite dominant_exact by assumption. unfold Spec.atLeast60Percent.
  apply Nat.leb_le in H. now rewrite H.
Qed.

Lemma categorizeFiles_components_first_witness :
  let files := ["src/components/Button.test.tsx"; "src/components/Modal.test.tsx";
                "src/Components/Input.test.tsx"; "tests/app.test.ts";
                "tests/api.test.ts"] in
  (Z.of_nat (length files) < 2 ^ 32)%Z
  /\ 3 * length files <= 5 * matchCount reScopeComponents files
  /\ matchCount reTest files = 5
  /\ categorizeFiles files = Some "components".
Proof.
  split; [reflexivity|]. split; [vm_compute; lia|]. split; [reflexivity|].
  apply categorizeFiles_components_first; [reflexivity|vm_compute; lia].
Defined.

(** ** The subject composer, in general *)

(** X14. The subject is never empty. *)
Theorem generateSubject_never_empty (changes : GitChanges) (type : string) (total : nat) :
  generateSubject changes type total <> "".
Proof.
  unfold generateSubject.
  repeat match goal with
         | |- context [if ?b then _ else _] => destruct b
         | |- context [match ?o with Some _ => _ | None => _ end] => destruct o
         end; discriminate.
Qed.

Lemma generateSubject_never_empty_witness :
  generateSubject noChanges "feat" 0 <> ""
  /\ generateSubject noChanges "feat" 0 = "add components".
Proof. split; [apply generateSubject_never_empty|reflexivity]. Defined.

(** X15. The type decides the subject only in the last row of the table:
    with all files added, all files deleted, at most three files, or a
    dominant category among the modified, added and deleted files, any two
    types give the same subject. *)
Theorem generateSubject_type_only_in_fallback
        (changes : GitChanges) (type1 type2 : string) (total : nat) :
  length (added changes) = total \/ length (deleted changes) = total \/ total <= 3
  \/ categorizeFiles (modified changes ++ added changes ++ deleted changes) <> None ->
  generateSubject changes type1 total = generateSubject changes type2 total.
Proof.
  intros H. unfold generateSubject.
  destruct (Nat.eqb_spec (length (added changes)) total) as [Ha|Ha]; [reflexivity|].
  destruct (Nat.eqb_spec (length (deleted changes)) total) as [Hd|Hd]; [reflexivity|].
  destruct ((length (modified changes) =? 1)%nat && (total =? 1)%nat); [reflexivity|].
  destruct (Nat.leb_spec total 3) as [Ht|Ht]; [reflexivity|].
  rewrite categorizeFiles_truthy.
  destruct (categorizeFiles (modified changes ++ added changes ++ deleted changes));
    [reflexivity|].
  exfalso. destruct H as [H|[H|[H|H]]]; solve [contradiction | lia | now apply H].
Qed.

Lemma generateSubject_type_only_in_fallback_witness :
  let changes := mkChanges ["src/a.ts"; "lib/b.ts"] ["docs/c.txt"] [] [] [] in
  3 <= 3
  /\ generateSubject changes "feat" 3 = generateSubject changes "fix" 3
  /\ generateSubject changes "feat" 3 = "update a, b, c".
Proof.
  split; [lia|]. split; [|reflexivity].
  apply generateSubject_type_only_in_fallback. right; right; left. lia.
Defined.

(** X16. Renamed and untracked files count in the total but are not in
    the pool of names: with one to three files, all of them renamed or
    untracked, the subject is [update ] followed by nothing. *)
Theorem generateSubject_no_name_to_list (changes : GitChanges) (type : string) :
  modified changes = [] -> added changes = [] -> deleted changes = [] ->
  1 <= totalFiles changes <= 3 ->
  generateSubject changes type (totalFiles changes) = "update ".
Proof.
  intros Hm Ha Hd Ht. unfold generateSubject. rewrite Hm, Ha, Hd. cbn [length app].
  replace (0 =? totalFiles changes)%nat with false by (symmetry; apply Nat.eqb_neq; lia).
  cbn [Nat.eqb andb].
  replace (totalFiles changes <=? 3)%nat with true by (symmetry; apply Nat.leb_le; lia).
  reflexivity.
Qed.

Lemma generateSubject_no_name_to_list_witness :
  let changes := mkChanges [] [] [] ["old.ts -> new.ts"] ["notes.txt"] in
  1 <= totalFiles changes <= 3
  /\ generateSubject changes "refactor" (totalFiles changes) = "update ".
Proof.
  split; [unfold totalFiles; simpl; lia|].
  apply generateSubject_no_name_to_list; try reflexivity.
  unfold totalFiles; simpl; lia.
Defined.

(** X17. One file in all: the subject is [add], [remove] or [update]
    followed by the base name of the file, its directories and its last
    extension left out. *)
Theorem generateSubject_single_file (dir name ext type : string) :
  Shape.noSlash name = true -> Shape.isExtension ext = true ->
  let p := dir ++ String "/" (name ++ String "." ext) in
  generateSubject (mkChanges [] [p] [] [] []) type 1 = "add " ++ name
  /\ generateSubject (mkChanges [] [] [p] [] []) type 1 = "remove " ++ name
  /\ generateSubject (mkChanges [p] [] [] [] []) type 1 = "update " ++ name.
Proof.
  intros Hname Hext p.
  assert (Hp : getFileName p = name).
  { subst p. unfold getFileName, replace.
    assert (Hbase : Shape.noSlash (name ++ String "." ext) = true).
    { apply noSlash_append; [assumption|].
      unfold Shape.noSlash. cbn [Shape.allChars]. now apply isExtension_noSlash. }
    rewrite pop_split_last by assumption. cbn [JS.whenTruthy].
    replace (JS.truthy (name ++ String "." ext)) with true by now destruct name.
    rewrite exec_extension_found by assumption. cbn [append]. apply append_empty_r. }
  unfold generateSubject. cbn [added deleted modified length Nat.eqb andb nth].
  now rewrite Hp.
Qed.

Lemma generateSubject_single_file_witness :
  Shape.noSlash "Login" = true /\ Shape.isExtension "tsx" = true
  /\ generateSubject (mkChanges [] ["src/auth/Login.tsx"] [] [] []) "feat" 1 = "add Login".
Proof.
  split; [reflexivity|]. split; [reflexivity|].
  apply (generateSubject_single_file "src/auth" "Login" "tsx" "feat"); reflexivity.
Defined.

(** ** The body composer, in general *)

Lemma join_cons_head (sep : string) (c : ascii) (h : string) (rest : list string) :
  exists t, JS.join sep (String c h :: rest) = String c t.
Proof.
  unfold JS.join. destruct rest as [|x rest]; cbn [String.concat append]; eauto.
Qed.

Lemma listing_head (header : string) (files : list string) :
  files <> [] -> exists rest, listing header files = header :: rest.
Proof.
  intros H. unfold listing. destruct files as [|f files]; [contradiction|].
  cbn [length Nat.ltb Nat.leb]. eauto.
Qed.

Lemma listing_nil (header : string) : listing header [] = [].
Proof. reflexivity. Qed.

Lemma lines_head (changes : GitChanges) :
  Shape.tracked changes <> [] ->
  exists header rest,
    lines changes = header :: rest
    /\ In header ["Added:"; "Modified:"; "Deleted:"; "Renamed:"].
Proof.
  unfold Shape.tracked, lines. intros H.
  destruct (added changes) as [|a la] eqn:Ea.
  - rewrite listing_nil. cbn [app].
    destruct (modified changes) as [|m lm] eqn:Em.
    + rewrite listing_nil. cbn [app].
      destruct (deleted changes) as [|d ld] eqn:Ed.
      * rewrite listing_nil. cbn [app] in *.
        destruct (listing_head "Renamed:" (renamed changes) H) as [rest ->].
        exists "Renamed:", rest. simpl. tauto.
      * destruct (listing_head "Deleted:" (d :: ld)) as [rest ->]; [discriminate|].
        exists "Deleted:". eexists. split; [reflexivity|simpl; tauto].
    + destruct (listing_head "Modified:" (m :: lm)) as [rest ->]; [discriminate|].
      exists "Modified:". eexists. split; [reflexivity|simpl; tauto].
  - destruct (listing_head "Added:" (a :: la)) as [rest ->]; [discriminate|].
    exists "Added:". eexists. split; [reflexivity|simpl; tauto].
Qed.

(** X18. The body is empty exactly when the file count is within the
    threshold and no file is modified, added, deleted or renamed; above the
    threshold, with no such file, it is the bare prefix [Changes: ]. *)
Theorem generateBody_empty_iff (max : Z) (changes : GitChanges) (total : nat) :
  (generateBody max changes total = ""
   <-> (Z.of_nat total <= max)%Z /\ Shape.tracked changes = [])
  /\ ((max < Z.of_nat total)%Z -> Shape.tracked changes = [] ->
      generateBody max changes total = "Changes: ").
Proof.
  assert (Hnil : Shape.tracked changes = [] ->
                 added changes = [] /\ modified changes = []
                 /\ deleted changes = [] /\ renamed changes = []).
  { unfold Shape.tracked. intros H.
    apply app_eq_nil in H as [Hm H]. apply app_eq_nil in H as [Ha H].
    apply app_eq_nil in H as [Hd Hr]. tauto. }
  unfold generateBody. split; [split|].
  - destruct (Z.ltb_spec max (Z.of_nat total)) as [Hlt|Hle]; [discriminate|].
    intros Hbody. split; [assumption|].
    destruct (Shape.tracked changes) as [|p ps] eqn:Et; [reflexivity|exfalso].
    destruct (lines_head changes) as (header & rest & Hl & Hh);
      [rewrite Et; discriminate|].
    rewrite Hl in Hbody.
    assert (exists c h, header = String c h /\ JS.isWhiteSpace c = false) as (c & h & -> & Hc).
    { simpl in Hh. destruct Hh as [<-|[<-|[<-|[<-|[]]]]]; eexists; eexists; split;
        reflexivity. }
    destruct (join_cons_head JS.nl c h rest) as [t Ht]. rewrite Ht in Hbody.
    unfold JS.trim in Hbody. cbn [JS.trimStart] in Hbody. rewrite Hc in Hbody.
    rewrite trimEnd_cons_kept in Hbody by assumption. discriminate.
  - intros [Hle Ht]. apply Z.ltb_ge in Hle. rewrite Hle.
    destruct (Hnil Ht) as (Ha & Hm & Hd & Hr). unfold lines. now rewrite Ha, Hm, Hd, Hr.
  - intros Hlt Ht. apply Z.ltb_lt in Hlt. rewrite Hlt.
    destruct (Hnil Ht) as (Ha & Hm & Hd & Hr). unfold generateSummary.
    now rewrite Ha, Hm, Hd, Hr.
Qed.

Lemma generateBody_empty_iff_witness :
  let changes := mkChanges [] [] [] [] ["a.txt"; "b.txt"] in
  (Z.of_nat (totalFiles changes) <= 20)%Z /\ Shape.tracked changes = []
  /\ generateBody 20 changes (totalFiles changes) = ""
  /\ (1 < Z.of_nat (totalFiles changes))%Z
  /\ generateBody 1 changes (totalFiles changes) = "Changes: ".
Proof.
  assert (H1 : (Z.of_nat (totalFiles (mkChanges [] [] [] [] ["a.txt"; "b.txt"])) <= 20)%Z)
    by (vm_compute; discriminate).
  assert (H2 : Shape.tracked (mkChanges [] [] [] [] ["a.txt"; "b.txt"]) = [])
    by reflexivity.
  assert (H3 : (1 < Z.of_nat (totalFiles (mkChanges [] [] [] [] ["a.txt"; "b.txt"])))%Z)
    by reflexivity.
  split; [exact H1|]. split; [exact H2|]. split.
  - apply (proj1 (generateBody_empty_iff 20 _ _)). now split.
  - split; [exact H3|]. exact (proj2 (generateBody_empty_iff 1 _ _) H3 H2).
Defined.

(** X19. Within the threshold the body is trimmed: it neither starts nor
    ends with white space, so no blank line trails the listing. *)
Theorem generateBody_listing_trimmed (max : Z) (changes : GitChanges) (total : nat) :
  (Z.of_nat total <= max)%Z ->
  JS.trim (generateBody max changes total) = generateBody max changes total.
Proof.
  intros H. unfold generateBody. apply Z.ltb_ge in H. rewrite H. apply trim_idempotent.
Qed.

Lemma generateBody_listing_trimmed_witness :
  let changes := mkChanges ["src/a.ts"] ["src/b.ts"] [] [] [] in
  (Z.of_nat 2 <= 20)%Z
  /\ JS.trim (generateBody 20 changes 2) = generateBody 20 changes 2
  /\ generateBody 20 changes 2
     = "Added:" ++ JS.nl ++ "  - src/b.ts" ++ JS.nl ++ JS.nl
       ++ "Modified:" ++ JS.nl ++ "  - src/a.ts".
Proof.
  split; [vm_compute; discriminate|]. split; [|reflexivity].
  apply generateBody_listing_trimmed. vm_compute; discriminate.
Defined.

(** ** The footer *)

(** X20. There is a footer exactly when footers are switched on and the
    answer to the prompt has a character that is not white space; it is
    [Closes #] followed by the trimmed answer. *)
Theorem generateFooter_iff (includeFooter : bool) (answer : option string) (f : string) :
  generateFooter includeFooter answer = Some f
  <-> includeFooter = true
      /\ exists issue, answer = Some issue /\ Spec.blank issue = false
                       /\ f = "Closes #" ++ JS.trim issue.
Proof.
  unfold generateFooter. split.
  - destruct includeFooter; [|discriminate]. cbn [negb].
    destruct answer as [[|c issue]|]; try discriminate. cbn [JS.whenTruthy JS.truthy].
    rewrite trim_truthy. destruct (Spec.blank (String c issue)) eqn:Hb; [discriminate|].
    cbn [negb]. intros [= <-]. split; [reflexivity|]. now exists (String c issue).
  - intros (-> & issue & -> & Hb & ->). cbn [negb].
    destruct issue as [|c issue]; [discriminate|]. cbn [JS.whenTruthy JS.truthy].
    now rewrite trim_truthy, Hb.
Qed.

Lemma generateFooter_iff_witness :
  generateFooter true (Some " 123 ") = Some "Closes #123"
  /\ generateFooter true (Some "   ") = None
  /\ generateFooter false (Some "123") = None.
Proof.
  split; [|split; reflexivity].
  apply (proj2 (generateFooter_iff true (Some " 123 ") "Closes #123")).
  split; [reflexivity|]. exists " 123 ". repeat split.
Defined.

(** ** The command, end to end *)

Lemma determineScope_truthy (changes : GitChanges) (s : string) :
  determineScope changes = Some s -> JS.truthy s = true.
Proof.
  unfold determineScope.
  destruct (length _ =? 0)%nat; [discriminate|].
  match goal with
  | |- context [JS.uniq ?l] => set (dirs := l)
  end.
  destruct ((length (JS.uniq dirs) =? 1)%nat
            && negb (String.eqb (nth 0 (JS.uniq dirs) "") "."))%bool eqn:E.
  - intros [= <-]. apply andb_true_iff in E as [El _]. apply Nat.eqb_eq in El.
    destruct (JS.uniq dirs) as [|x [|y u]] eqn:Eu; try discriminate.
    destruct (uniq_singleton _ _ Eu) as [t Et].
    assert (Hin : In x dirs) by (rewrite Et; now left).
    apply filter_In in Hin as [_ Hne]. cbn [nth]. now destruct x.
  - repeat match goal with
           | |- context [if ?b then _ else _] => destruct b
           end; now intros [= <-].
Qed.

Lemma scopePart_determineScope (changes : GitChanges) :
  Spec.scopePart (determineScope changes)
  = match determineScope changes with
    | Some s => "(" ++ s ++ ")"
    | None => ""
    end.
Proof.
  destruct (determineScope changes) as [s|] eqn:E; [|reflexivity].
  apply determineScope_truthy in E. now destruct s.
Qed.

Lemma blockPart_generateFooter (includeFooter : bool) (answer : option string) :
  Spec.blockPart (generateFooter includeFooter answer)
  = match generateFooter includeFooter answer with
    | Some f => JS.nl ++ JS.nl ++ f
    | None => ""
    end.
Proof.
  unfold generateFooter. destruct (negb includeFooter); [reflexivity|].
  destruct (JS.whenTruthy answer) as [issue|]; [|reflexivity].
  destruct (JS.truthy (JS.trim issue)); reflexivity.
Qed.

(** X21. Every message the command produces has the layout
    [type(scope): subject], the scope in parentheses exactly when the scope
    resolver gives one, then the body after a blank line unless it is
    empty, then the footer after a blank line when there is one; the type
    is the label the user picked. *)
Theorem activate_message_layout (host : Host) (status m : string) :
  activate host (inl status) = CommitMessage m ->
  let changes := parseGitStatus status in
  exists type,
    selectCommitType (showQuickPick host) changes = Some type
    /\ m = type
           ++ match determineScope changes with
              | Some s => "(" ++ s ++ ")"
              | None => ""
              end
           ++ ": " ++ generateSubject changes type (totalFiles changes)
           ++ Spec.blockPart
                (Some (generateBody (maxFilesInBody host) changes (totalFiles changes)))
           ++ match generateFooter (includeFooter host) (showInputBox host) with
              | Some f => JS.nl ++ JS.nl ++ f
              | None => ""
              end.
Proof.
  unfold activate. destruct (negb (workspaceFolder host)); [discriminate|].
  destruct (negb (JS.truthy (JS.trim status))); [discriminate|].
  unfold buildCommitStructure.
  destruct (selectCommitType (showQuickPick host) (parseGitStatus status)) as [ty|];
    [|discriminate].
  intros [= <-]. exists ty. split; [reflexivity|].
  rewrite formatCommitMessage_parts. cbn [type scope subject body footer].
  now rewrite scopePart_determineScope, blockPart_generateFooter.
Qed.

Lemma activate_message_layout_witness :
  let host := mkHost true 20 true (fun items => nth_error items 1) (Some " 42") in
  let status := "A  src/api/users.ts" in
  activate host (inl status)
  = CommitMessage ("fix(src): add users" ++ JS.nl ++ JS.nl ++ "Added:" ++ JS.nl
                   ++ "  - src/api/users.ts" ++ JS.nl ++ JS.nl ++ "Closes #42")
  /\ exists type,
       selectCommitType (showQuickPick host) (parseGitStatus status) = Some type.
Proof.
  assert (H : activate (mkHost true 20 true (fun items => nth_error items 1) (Some " 42"))
                       (inl "A  src/api/users.ts")
              = CommitMessage ("fix(src): add users" ++ JS.nl ++ JS.nl ++ "Added:" ++ JS.nl
                               ++ "  - src/api/users.ts" ++ JS.nl ++ JS.nl ++ "Closes #42"))
    by reflexivity.
  split; [exact H|].
  destruct (activate_message_layout _ _ _ H) as (type & Ht & _).
  now exists type.
Defined.

(** X22. When the user dismisses the type pick, the command produces no
    message, whatever the status output and the settings are. *)
Theorem activate_dismissed (host : Host) (execSync : string + string) (m : string) :
  (forall items, showQuickPick host items = None) ->
  activate host execSync <> CommitMessage m.
Proof.
  intros Hpick. unfold activate.
  destruct (negb (workspaceFolder host)); [discriminate|].
  destruct execSync as [status|error]; [|discriminate].
  destruct (negb (JS.truthy (JS.trim status))); [discriminate|].
  unfold buildCommitStructure, selectCommitType. rewrite Hpick. discriminate.
Qed.

Lemma activate_dismissed_witness :
  let host := mkHost true 20 false (fun _ => None) None in
  (forall items, showQuickPick host items = None)
  /\ activate host (inl "M  README.md") = Cancelled
  /\ activate host (inl "M  README.md") <> CommitMessage "docs: update README".
Proof.
  assert (H : forall items,
             showQuickPick (mkHost true 20 false (fun _ => None) None) items = None)
    by reflexivity.
  split; [exact H|]. split; [reflexivity|].
  exact (activate_dismissed _ _ _ H).
Defined.
